(** * tk-katana: the Katana engine and its loader actions hook

    A shallow embedding of [engine.py] (class [KatanaEngine]) and of
    [hooks/tk-katana_actions.py] (class [KatanaActions]), and the
    properties of the two that the specification states.

    Python code runs against a world: what it has printed and what it
    has asked of Katana's node graph.  A method is a function from the
    world to an outcome (a value or a raised exception) and the world it
    leaves.  The toolkit (sgtk/tank), the file system, the PyQt4 import
    and Python's own [repr] are services the code calls and does not
    define; they are the fields of one record, [Env], and each of them
    answers with a value or with the exception it raises. *)

From stdpp Require Import list gmap strings pretty.
From Stdlib Require Import ZArith.

Set Warnings "-register-all".

Open Scope string_scope.
Open Scope list_scope.

(** ** Python values *)

(** The values that travel through the two files: publish data,
    settings, template fields and the parameter dictionary.  A [dict]
    with string keys is a finite map. *)
Inductive val : Type :=
  | VNone
  | VBool (b : bool)
  | VInt (z : Z)
  | VStr (s : string)
  | VList (l : list val)
  | VDict (d : gmap string val).

(** Python's truth value testing, as [if x:] applies it. *)
Definition truthy (v : val) : bool :=
  match v with
  | VNone => false
  | VBool b => b
  | VInt z => negb (Z.eqb z 0)
  | VStr s => negb (String.eqb s "")
  | VList l => match l with [] => false | _ => true end
  | VDict d => negb (bool_decide (d = ∅))
  end.

(** The exception classes the two files raise, catch or run into.
    [Exception] is the generic class; the others are subclasses of it,
    so [except Exception] catches every one of them. *)
Inductive exn : Type :=
  | Exception (msg : string)
  | TankError (msg : string)
  | ImportError (msg : string)
  | AttributeError (msg : string).

(** [str(e)] of an exception built from one message. *)
Definition exn_message (e : exn) : string :=
  match e with
  | Exception m | TankError m | ImportError m | AttributeError m => m
  end.

Inductive Res (A : Type) : Type :=
  | Ok (a : A)
  | Raise (e : exn).
Arguments Ok {A} a.
Arguments Raise {A} e.

(** ** The world *)

(** Handles of Katana nodes. *)
Definition Node := nat.

(** A parameter object, as [node.getParameter(name)] hands it out. *)
Record KatanaParameter := { param_node : Node; param_name : string }.

(** The calls made into [NodegraphAPI], in the order they are made. *)
Inductive HostCall : Type :=
  | Call_GetRootNode
  | Call_CreateNode (node_type : string) (parent : Node) (created : Node)
  | Call_getParameter (node : Node) (name : string)
  | Call_setValue (parm : KatanaParameter) (value : string) (time : Z).

Record World := {
  stdout : list string;        (* the lines printed so far *)
  host_calls : list HostCall;  (* the node-graph calls made so far *)
  next_node : Node;            (* the handle the next created node gets *)
}.

Definition is_CreateNode (c : HostCall) : bool :=
  match c with Call_CreateNode _ _ _ => true | _ => false end.

(** The node-creation calls among the host calls of a world. *)
Definition creations (w : World) : list HostCall :=
  filter (λ c, is_CreateNode c = true) (host_calls w).

(** ** Computations *)

Definition M (A : Type) : Type := World → Res A * World.

#[global] Instance M_ret : MRet M := λ A a w, (Ok a, w).

#[global] Instance M_bind : MBind M := λ A B f c w,
  match c w with
  | (Ok a, w') => f a w'
  | (Raise e, w') => (Raise e, w')
  end.

(** [raise e] *)
Definition raise {A} (e : exn) : M A := λ w, (Raise e, w).

(** A service's answer, taken into a computation. *)
Definition lift {A} (r : Res A) : M A := λ w, (r, w).

(** [try: body / except Exception, e: handler e] *)
Definition try_except {A} (body : M A) (handler : exn → M A) : M A := λ w,
  match body w with
  | (Ok a, w') => (Ok a, w')
  | (Raise e, w') => handler e w'
  end.

(** The [print] statement: one more line on standard output. *)
Definition print (line : string) : M unit := λ w,
  (Ok tt, {| stdout := stdout w ++ [line];
             host_calls := host_calls w;
             next_node := next_node w |}).

Definition host_call (c : HostCall) (w : World) : World :=
  {| stdout := stdout w;
     host_calls := host_calls w ++ [c];
     next_node := next_node w |}.

(** ** Katana's node graph

    [NodegraphAPI] is the host's; what the hook does with it is the
    sequence of calls it makes, which the world records.  A created
    node gets the next free handle, and a parameter is named by its node
    and its name. *)

Definition root_node : Node := 0.

Definition GetRootNode : M Node := λ w,
  (Ok root_node, host_call Call_GetRootNode w).

Definition CreateNode (node_type : string) (parent : Node) : M Node := λ w,
  let node := next_node w in
  (Ok node, {| stdout := stdout w;
               host_calls := host_calls w ++ [Call_CreateNode node_type parent node];
               next_node := S node |}).

Definition getParameter (node : Node) (name : string) : M KatanaParameter := λ w,
  (Ok {| param_node := node; param_name := name |},
   host_call (Call_getParameter node name) w).

Definition setValue (parm : KatanaParameter) (value : string) (time : Z) : M unit := λ w,
  (Ok tt, host_call (Call_setValue parm value time) w).

(** ** PyQt4, as Katana bundles it *)

(** Classes and functions of the binding, named by their qualified name. *)
Definition PyObj := string.

(** The attributes of [PyQt4.QtCore] that [_define_qt_base] reads or
    sets.  [Signal], [Slot] and [Property] are PySide's names; PyQt4 has
    none of them until they are set. *)
Record QtCoreModule := {
  pyqtSignal : PyObj;
  pyqtSlot : PyObj;
  pyqtProperty : PyObj;
  PYQT_VERSION_STR : string;
  Signal : option PyObj;
  Slot : option PyObj;
  Property : option PyObj;
}.

Record QtGuiModule := { QDialog : PyObj }.

(** What an entry of the dictionary [_define_qt_base] returns can be. *)
Inductive QtEntry : Type :=
  | QTProxy                       (* an instance of the proxy class *)
  | Entry_QtCore (m : QtCoreModule)
  | Entry_QtGui (m : QtGuiModule)
  | Entry_class (c : PyObj)
  | Entry_None.

Definition no_pyqt_message : string :=
  "Looks like you are trying to run an App that uses a QT " +:+
  "based UI, however the Katana engine could not find a PyQt " +:+
  "installation!".

(** [QTProxy.__getattr__] *)
Definition QTProxy_getattr (name : string) : Res PyObj :=
  Raise (TankError no_pyqt_message).

Definition no_attribute (name : string) : exn :=
  AttributeError ("object has no attribute '" +:+ name +:+ "'").

Definition optional_attribute (name : string) (o : option PyObj) : Res PyObj :=
  match o with
  | Some x => Ok x
  | None => Raise (no_attribute name)
  end.

(** Attribute access [entry.name] on an entry of the dictionary. *)
Definition getattr (entry : QtEntry) (name : string) : Res PyObj :=
  match entry with
  | QTProxy => QTProxy_getattr name
  | Entry_QtCore m =>
      if String.eqb name "pyqtSignal" then Ok (pyqtSignal m)
      else if String.eqb name "pyqtSlot" then Ok (pyqtSlot m)
      else if String.eqb name "pyqtProperty" then Ok (pyqtProperty m)
      else if String.eqb name "Signal" then optional_attribute name (Signal m)
      else if String.eqb name "Slot" then optional_attribute name (Slot m)
      else if String.eqb name "Property" then optional_attribute name (Property m)
      else Raise (no_attribute name)
  | Entry_QtGui m =>
      if String.eqb name "QDialog" then Ok (QDialog m)
      else Raise (no_attribute name)
  | Entry_class _ | Entry_None => Raise (no_attribute name)
  end.

(** ** The services *)

(** A toolkit instance, and a path template of its configuration. *)
Record Tk := { tk_project_root : string }.
Record Template := { template_name : string; template_definition : string }.

Record Env := {
  (* the engine's settings, [self.get_setting] reads them *)
  settings : gmap string val;
  (* [self._callback_map], kept by the engine's base class *)
  _callback_map : gmap string (M unit);
  (* [repr] of a value, for [%s] and [str] on what is not a string *)
  py_repr : val → string;
  (* [traceback.format_exc()] while the exception is handled *)
  format_exc : exn → string;
  (* [from PyQt4 import QtCore, QtGui; import PyQt4]: the two modules
     and [PyQt4.__file__], or the exception the import raises *)
  import_PyQt4 : Res (QtCoreModule * QtGuiModule * string);
  (* [self.get_publish_path], of the hook's base class *)
  get_publish_path : gmap string val → Res string;
  (* [os.path.exists] *)
  path_exists : string → bool;
  (* [sgtk.tank_from_path] *)
  tank_from_path : string → Res Tk;
  (* [tk.template_from_path]: [None] when no template matches *)
  template_from_path : Tk → string → Res (option Template);
  (* [template.get_fields] *)
  get_fields : Template → string → Res (gmap string val);
}.

(** ** engine.py *)

Module KatanaEngine.
Section WithEnv.
Context (E : Env).

(** [str(v)], and [%s] applied to [v]. *)
Definition py_str (v : val) : string :=
  match v with
  | VStr s => s
  | VNone => "None"
  | _ => py_repr E v
  end.

Definition get_setting (key : string) (default_value : val) : val :=
  default default_value (settings E !! key).

Definition log_debug (msg : string) : M unit :=
  if truthy (get_setting "debug_logging" (VBool false))
  then print ("Shotgun Debug: " +:+ msg)
  else mret tt.

Definition log_info (msg : string) : M unit :=
  print ("Shotgun: " +:+ msg).

Definition _display_message (msg : string) : M unit :=
  log_info msg.

Definition log_error (msg : string) : M unit :=
  _display_message msg;;
  print ("Shotgun Error: " +:+ msg).

Definition log_warning (msg : string) : M unit :=
  print msg.

Definition launch_command (cmd_id : string) : M unit :=
  let callback := _callback_map E !! cmd_id in
  match callback with
  | None => log_error ("No callback found for id: " +:+ cmd_id)
  | Some callback => callback
  end.

(** The three entries before the import is tried. *)
Definition proxy_base : gmap string QtEntry :=
  <["dialog_base" := Entry_None]>
    (<["qt_gui" := QTProxy]> (<["qt_core" := QTProxy]> ∅)).

(** [QtCore.Signal = QtCore.pyqtSignal] and the two lines after it. *)
Definition hot_patch (QtCore : QtCoreModule) : QtCoreModule :=
  {| pyqtSignal := pyqtSignal QtCore;
     pyqtSlot := pyqtSlot QtCore;
     pyqtProperty := pyqtProperty QtCore;
     PYQT_VERSION_STR := PYQT_VERSION_STR QtCore;
     Signal := Some (pyqtSignal QtCore);
     Slot := Some (pyqtSlot QtCore);
     Property := Some (pyqtProperty QtCore) |}.

(** The body of the [try] can raise at the import only, so the
    handlers see [base] as it was before the [try]. *)
Definition _define_qt_base : M (gmap string QtEntry) :=
  let base := proxy_base in
  try_except
    ('(QtCore, QtGui, PyQt4_file) ← lift (import_PyQt4 E);
     let QtCore := hot_patch QtCore in
     let base := <["qt_core" := Entry_QtCore QtCore]> base in
     let base := <["qt_gui" := Entry_QtGui QtGui]> base in
     let base := <["dialog_base" := Entry_class (QDialog QtGui)]> base in
     log_debug ("Successfully initialized PyQt '" +:+ PYQT_VERSION_STR QtCore
                +:+ "' located in " +:+ PyQt4_file +:+ ".");;
     mret base)
    (λ e,
       match e with
       | ImportError _ => mret base
       | _ =>
           log_warning ("Error setting up PyQt. PyQt based UI support "
                        +:+ "will not be available: " +:+ exn_message e);;
           log_debug (format_exc E e);;
           mret base
       end).

End WithEnv.
End KatanaEngine.

(** ** hooks/tk-katana_actions.py *)

(** An action instance: the dictionary with the keys [name], [params],
    [caption] and [description] that [generate_actions] appends. *)
Record action_instance := {
  name : string;
  params : val;
  caption : string;
  description : string;
}.

Module KatanaActions.
Section WithEnv.
Context (E : Env).

(** [app.log_debug]: the application forwards to its engine. *)
Definition app_log_debug : string → M unit := KatanaEngine.log_debug E.

Definition py_str : val → string := KatanaEngine.py_str E.

Definition generate_actions (sg_publish_data : gmap string val)
    (actions : list string) (ui_area : string) : M (list action_instance) :=
  app_log_debug ("Generate actions called for UI element " +:+ ui_area +:+ ". "
                 +:+ "Actions: " +:+ py_str (VList (VStr <$> actions))
                 +:+ ". Publish Data: " +:+ py_str (VDict sg_publish_data));;
  let action_instances := [] in
  let action_instances :=
    if bool_decide ("open_project" ∈ actions) then
      action_instances ++
        [ {| name := "open_project";
             params := VNone;
             caption := "Open Project";
             description := "This will open the Katana project file." |} ]
    else action_instances in
  let action_instances :=
    if bool_decide ("import_look_file" ∈ actions) then
      action_instances ++
        [ {| name := "import_look_file";
             params := VNone;
             caption := "Import Look File";
             description := "This will create an LookFileAssign node corresponding to this published Look File." |} ]
    else action_instances in
  let action_instances :=
    if bool_decide ("create_node_Alembic_In" ∈ actions) then
      action_instances ++
        [ {| name := "create_node_Alembic_In";
             params := VNone;
             caption := "Import Alembic";
             description := "This will create an Alembic_In node corresponding to this cache." |} ]
    else action_instances in
  let action_instances :=
    if bool_decide ("create_node_ImageRead" ∈ actions) then
      action_instances ++
        [ {| name := "create_node_ImageRead";
             params := VNone;
             caption := "Import image";
             description := "Creates an ImageRead node for the selected item." |} ]
    else action_instances in
  mret action_instances.

Definition _open_project (path : string) (sg_publish_data : gmap string val) : M val :=
  mret VNone.

Definition project_path : string :=
  "/mnt/netdev/sam.saxon/shotgun/Shotgun_Katana_Test/big_buck_bunny".

(** [template.get_fields(path)], where [template] may be [None]. *)
Definition template_get_fields (template : option Template) (path : string)
    : M (gmap string val) :=
  match template with
  | Some t => lift (get_fields E t path)
  | None => raise (AttributeError "'NoneType' object has no attribute 'get_fields'")
  end.

(** [template.name] *)
Definition template_dot_name (template : option Template) : M string :=
  match template with
  | Some t => mret (template_name t)
  | None => raise (AttributeError "'NoneType' object has no attribute 'name'")
  end.

Definition _create_node (node_type path : string)
    (sg_publish_data : gmap string val) (asset_parameter : string) : M Node :=
  if negb (path_exists E path) then
    raise (Exception ("File not found on disk - '" +:+ path +:+ "'"))
  else
    tk ← lift (tank_from_path E project_path);
    template ← lift (template_from_path E tk path);
    fields ← template_get_fields template path;
    let fields :=
      if bool_decide (is_Some (fields !! "SEQ")) then delete "SEQ" fields
      else fields in
    let parameter_dict : gmap string val := ∅ in
    template_name ← template_dot_name template;
    let parameter_dict := <["template" := VStr template_name]> parameter_dict in
    let parameter_dict := <["fields" := VDict fields]> parameter_dict in
    root ← GetRootNode;
    node ← CreateNode node_type root;
    parm ← getParameter node asset_parameter;
    setValue parm (py_str (VDict parameter_dict)) 0;;
    mret node.

Definition execute_action (name : string) (params : val)
    (sg_publish_data : gmap string val) : M val :=
  app_log_debug ("Execute action called for action " +:+ name +:+ ". "
                 +:+ "Parameters: " +:+ py_str params
                 +:+ ". Publish Data: " +:+ py_str (VDict sg_publish_data));;
  path ← lift (get_publish_path E sg_publish_data);
  (if String.eqb name "open_project"
   then _open_project path sg_publish_data ≫= λ _, mret tt
   else mret tt);;
  (if String.eqb name "import_look_file"
   then _open_project path sg_publish_data ≫= λ _, mret tt
   else mret tt);;
  (if String.eqb name "create_node_Alembic_In"
   then _create_node "Alembic_In" path sg_publish_data "abcAsset" ≫= λ _, mret tt
   else mret tt);;
  (if String.eqb name "create_node_ImageRead"
   then _create_node "ImageRead" path sg_publish_data "file" ≫= λ _, mret tt
   else mret tt);;
  mret VNone.

End WithEnv.
End KatanaActions.

(** ** Vocabulary of the statements *)

(** What a computation returns or raises from a world, and the world it
    leaves. *)
Definition result {A} (c : M A) (w : World) : Res A := fst (c w).
Definition after {A} (c : M A) (w : World) : World := snd (c w).

(** The world with some more lines printed. *)
Definition printed (lines : list string) (w : World) : World :=
  {| stdout := stdout w ++ lines;
     host_calls := host_calls w;
     next_node := next_node w |}.

(** The [debug_logging] setting, as [log_debug] tests it. *)
Definition debug_enabled (E : Env) : bool :=
  truthy (KatanaEngine.get_setting E "debug_logging" (VBool false)).

(** The action names [generate_actions] knows, in the order it tests them. *)
Definition known_actions : list string :=
  ["open_project"; "import_look_file"; "create_node_Alembic_In"; "create_node_ImageRead"].

(** The four dictionaries [generate_actions] can append, in that order. *)
Definition descriptor_table : list action_instance :=
  [ {| name := "open_project";
       params := VNone;
       caption := "Open Project";
       description := "This will open the Katana project file." |};
    {| name := "import_look_file";
       params := VNone;
       caption := "Import Look File";
       description := "This will create an LookFileAssign node corresponding to this published Look File." |};
    {| name := "create_node_Alembic_In";
       params := VNone;
       caption := "Import Alembic";
       description := "This will create an Alembic_In node corresponding to this cache." |};
    {| name := "create_node_ImageRead";
       params := VNone;
       caption := "Import image";
       description := "Creates an ImageRead node for the selected item." |} ].

(** The specification's reading of [generate_actions]: a static lookup
    that keeps the descriptors whose name is in the input list. *)
Definition static_lookup (actions : list string) : list action_instance :=
  filter (λ d, name d ∈ actions) descriptor_table.

(** The descriptors of a list that carry a given name. *)
Definition named (n : string) (instances : list action_instance) : list action_instance :=
  filter (λ d, name d = n) instances.

(** The toolkit answers for a path: the path is on disk, the project
    of [project_path] is a toolkit project, a template matches the path
    and yields its fields. *)
Definition template_resolves (E : Env) (path : string) (template : Template)
    (fields : gmap string val) : Prop :=
  path_exists E path = true ∧
  ∃ tk, tank_from_path E KatanaActions.project_path = Ok tk ∧
        template_from_path E tk path = Ok (Some template) ∧
        get_fields E template path = Ok fields.

(** The same for a publish, whose path is resolved first. *)
Definition resolves (E : Env) (sg_publish_data : gmap string val)
    (path : string) (template : Template) (fields : gmap string val) : Prop :=
  get_publish_path E sg_publish_data = Ok path ∧
  template_resolves E path template fields.

(** The dictionary [_create_node] serializes for a template and the
    fields it keeps. *)
Definition asset_dict (template : Template) (kept : gmap string val) : gmap string val :=
  <["fields" := VDict kept]> (<["template" := VStr (template_name template)]> ∅).

(** The four host calls of one node creation: the root is asked for, the
    node is created under it, its parameter is looked up and set. *)
Definition creation_calls (node_type asset_parameter : string) (node : Node)
    (value : string) : list HostCall :=
  [ Call_GetRootNode;
    Call_CreateNode node_type root_node node;
    Call_getParameter node asset_parameter;
    Call_setValue {| param_node := node; param_name := asset_parameter |} value 0 ].

(** The same services, with another answer of [template.get_fields]. *)
Definition with_fields (E : Env) (fields : gmap string val) : Env :=
  {| settings := settings E;
     _callback_map := _callback_map E;
     py_repr := py_repr E;
     format_exc := format_exc E;
     import_PyQt4 := import_PyQt4 E;
     get_publish_path := get_publish_path E;
     path_exists := path_exists E;
     tank_from_path := tank_from_path E;
     template_from_path := template_from_path E;
     get_fields := λ _ _, Ok fields |}.

(** The outcome of a call statement whose value is dropped, when
    nothing else follows it but the implicit [return None]. *)
Definition dropped {A} (r : Res A * World) : Res val * World :=
  match r with
  | (Ok _, w) => (Ok VNone, w)
  | (Raise e, w) => (Raise e, w)
  end.

(** The world after [log_debug] was given a line. *)
Definition logged (E : Env) (line : string) (w : World) : World :=
  printed (if debug_enabled E then ["Shotgun Debug: " +:+ line] else []) w.

(** ** Sample worlds and services *)

Definition empty_world : World :=
  {| stdout := []; host_calls := []; next_node := 1 |}.

Definition sample_publish : gmap string val :=
  <["path" := VDict (<["local_path" := VStr "/proj/shot010/cache.abc"]> ∅)]> ∅.

Definition sample_template : Template :=
  {| template_name := "shot_alembic_cache";
     template_definition := "/proj/{Shot}/cache.abc" |}.

Definition sample_fields : gmap string val :=
  <["SEQ" := VStr "FORMAT: %d"]>
    (<["Shot" := VStr "shot010"]> (<["version" := VInt 3]> ∅)).

Definition separated (item sofar : string) : string :=
  if String.eqb sofar "" then item else item +:+ ", " +:+ sofar.

(** A [repr] for the sample studio.  It lists the entries of a
    dictionary in the order of the finite map, where Python 2 lists them
    in the order of its hash table, and it does not escape quotes. *)
Fixpoint sample_repr (v : val) : string :=
  match v with
  | VNone => "None"
  | VBool b => if b then "True" else "False"
  | VInt z => pretty z
  | VStr s => "'" +:+ s +:+ "'"
  | VList l =>
      "[" +:+ foldr (λ x sofar, separated (sample_repr x) sofar) "" l +:+ "]"
  | VDict d =>
      "{" +:+ map_fold (λ key x sofar,
                          separated ("'" +:+ key +:+ "': " +:+ sample_repr x) sofar)
                "" d +:+ "}"
  end.

Definition sample_QtCore : QtCoreModule :=
  {| pyqtSignal := "PyQt4.QtCore.pyqtSignal";
     pyqtSlot := "PyQt4.QtCore.pyqtSlot";
     pyqtProperty := "PyQt4.QtCore.pyqtProperty";
     PYQT_VERSION_STR := "4.10.4";
     Signal := None;
     Slot := None;
     Property := None |}.

Definition sample_QtGui : QtGuiModule :=
  {| QDialog := "PyQt4.QtGui.QDialog" |}.

(** The path of a publish as the loader's base hook finds it, under
    [path] and [local_path]. *)
Definition sample_get_publish_path (sg_publish_data : gmap string val) : Res string :=
  match sg_publish_data !! "path" with
  | Some (VDict path_field) =>
      match path_field !! "local_path" with
      | Some (VStr local_path) => Ok local_path
      | _ => Raise (TankError "Local path is not set for this publish")
      end
  | _ => Raise (TankError "Path field for this publish is None")
  end.

(** A callback that fails whenever it is called. *)
Definition failing_callback : M unit :=
  raise (Exception "callback invoked").

(** A studio where everything is in place: the publish is on disk, the
    toolkit resolves it, PyQt4 imports, debug logging is off. *)
Definition studio : Env :=
  {| settings := ∅;
     _callback_map := <["open_loader" := failing_callback]> ∅;
     py_repr := sample_repr;
     format_exc := λ e, "Traceback (most recent call last): " +:+ exn_message e;
     import_PyQt4 := Ok (sample_QtCore, sample_QtGui, "/opt/katana/bin/python/PyQt4/__init__.pyc");
     get_publish_path := sample_get_publish_path;
     path_exists := λ p, String.eqb p "/proj/shot010/cache.abc";
     tank_from_path := λ p, Ok {| tk_project_root := p |};
     template_from_path := λ _ _, Ok (Some sample_template);
     get_fields := λ _ _, Ok sample_fields |}.

(** The same studio after the published file was removed from disk, and
    without PyQt4. *)
Definition studio_file_removed : Env :=
  {| settings := settings studio;
     _callback_map := _callback_map studio;
     py_repr := py_repr studio;
     format_exc := format_exc studio;
     import_PyQt4 := Raise (ImportError "No module named PyQt4");
     get_publish_path := get_publish_path studio;
     path_exists := λ _, false;
     tank_from_path := tank_from_path studio;
     template_from_path := template_from_path studio;
     get_fields := get_fields studio |}.

(** ** engine.py: the life cycle

    [init_engine], [post_app_init], [add_katana_menu] and
    [destroy_engine] read and set attributes of the engine and call
    into [logging], into Katana's [Callbacks] and into the engine's own
    [tk_katana] module.  The attributes and those calls are the state of
    an [Engine]; printing still goes to the world. *)

(** A logger, named as [logging.getLogger] was asked. *)
Definition Logger := string.

(** A [tk_katana.MenuGenerator], which keeps the menu name it was built
    with. *)
Record MenuGenerator := { generator_menu_name : string }.

(** The bound methods of the engine that are handed out as callbacks. *)
Inductive BoundMethod : Type :=
  | Method_add_katana_menu.

(** The calls the life cycle makes outside [engine.py], in order. *)
Inductive EngineCall : Type :=
  | Call_getLogger (logger_name : string)
  | Call_info (logger : Logger) (msg : string)
  | Call_import_module (module_name : string)
  | Call_MenuGenerator (menu_name : string)
  | Call_create_menu (generator : MenuGenerator)
  | Call_addCallback (callback_type : string) (callback : BoundMethod).

Record Engine := {
  katana_log : option Logger;               (* [self.katana_log], once set *)
  _menu_generator : option MenuGenerator;   (* [self._menu_generator], once set *)
  engine_calls : list EngineCall;
}.

(** What the life cycle asks of the framework: [str(self)],
    [self.import_module], the constructor of [MenuGenerator] and its
    [create_menu]. *)
Record Framework := {
  engine_str : string;
  import_module : string → Res unit;
  MenuGenerator_new : string → Res MenuGenerator;
  create_menu : MenuGenerator → Res unit;
}.

Definition EM (A : Type) : Type := Engine → World → Res A * Engine * World.

#[global] Instance EM_ret : MRet EM := λ A a self w, (Ok a, self, w).

#[global] Instance EM_bind : MBind EM := λ A B f c self w,
  match c self w with
  | (Ok a, self', w') => f a self' w'
  | (Raise e, self', w') => (Raise e, self', w')
  end.

(** A computation on the world alone, run by the engine. *)
Definition on_world {A} (c : M A) : EM A := λ self w,
  let (r, w') := c w in (r, self, w').

(** A call outside the file, with the answer it gets. *)
Definition engine_call {A} (c : EngineCall) (answer : Res A) : EM A := λ self w,
  (answer,
   {| katana_log := katana_log self;
      _menu_generator := _menu_generator self;
      engine_calls := engine_calls self ++ [c] |},
   w).

Definition missing_attribute (attribute : string) : exn :=
  AttributeError ("'KatanaEngine' object has no attribute '" +:+ attribute +:+ "'").

(** [self.katana_log], read. *)
Definition get_katana_log : EM Logger := λ self w,
  match katana_log self with
  | Some logger => (Ok logger, self, w)
  | None => (Raise (missing_attribute "katana_log"), self, w)
  end.

(** [self.katana_log = logger] *)
Definition set_katana_log (logger : Logger) : EM unit := λ self w,
  (Ok tt,
   {| katana_log := Some logger;
      _menu_generator := _menu_generator self;
      engine_calls := engine_calls self |},
   w).

(** [self._menu_generator], read. *)
Definition get_menu_generator : EM MenuGenerator := λ self w,
  match _menu_generator self with
  | Some generator => (Ok generator, self, w)
  | None => (Raise (missing_attribute "_menu_generator"), self, w)
  end.

(** [self._menu_generator = generator] *)
Definition set_menu_generator (generator : MenuGenerator) : EM unit := λ self w,
  (Ok tt,
   {| katana_log := katana_log self;
      _menu_generator := Some generator;
      engine_calls := engine_calls self |},
   w).

Module KatanaEngineLifecycle.
Section WithFramework.
Context (F : Framework) (E : Env).

Definition init_engine : EM unit :=
  on_world (KatanaEngine.log_debug E (engine_str F +:+ ": Initializing..."));;
  logger ← engine_call (Call_getLogger "Shotgun Katana Engine")
             (Ok "Shotgun Katana Engine");
  set_katana_log logger.

Definition add_katana_menu (objectHash : val) : EM unit :=
  let menu_name := "Shotgun" in
  let menu_name :=
    if truthy (KatanaEngine.get_setting E "use_sgtk_as_menu_name" (VBool false))
    then "Sgtk" else menu_name in
  tk_katana ← engine_call (Call_import_module "tk_katana")
                (import_module F "tk_katana");
  logger ← get_katana_log;
  engine_call (Call_info logger "Start creating shotgun menu.") (Ok tt);;
  generator ← engine_call (Call_MenuGenerator menu_name)
                (MenuGenerator_new F menu_name);
  set_menu_generator generator;;
  generator ← get_menu_generator;
  engine_call (Call_create_menu generator) (create_menu F generator).

Definition post_app_init : EM unit :=
  engine_call (Call_addCallback "onStartupComplete" Method_add_katana_menu) (Ok tt).

Definition destroy_engine : EM unit :=
  on_world (KatanaEngine.log_debug E (engine_str F +:+ ": Destroying...")).

End WithFramework.
End KatanaEngineLifecycle.

(** ** More vocabulary *)

(** What the toolkit answers [_create_node] for a path, in the order the
    code asks: the exception that stops it, or the template and the
    fields it goes on with. *)
Definition resolution (E : Env) (path : string) : Res (Template * gmap string val) :=
  if negb (path_exists E path) then
    Raise (Exception ("File not found on disk - '" +:+ path +:+ "'"))
  else
    match tank_from_path E KatanaActions.project_path with
    | Raise e => Raise e
    | Ok tk =>
        match template_from_path E tk path with
        | Raise e => Raise e
        | Ok None =>
            Raise (AttributeError "'NoneType' object has no attribute 'get_fields'")
        | Ok (Some template) =>
            match get_fields E template path with
            | Raise e => Raise e
            | Ok fields => Ok (template, fields)
            end
        end
    end.

(** The world after one node creation. *)
Definition created (node_type asset_parameter value : string) (w : World) : World :=
  {| stdout := stdout w;
     host_calls := host_calls w ++
       creation_calls node_type asset_parameter (next_node w) value;
     next_node := S (next_node w) |}.

(** The line [execute_action] hands to [log_debug]. *)
Definition execute_line (E : Env) (name : string) (params : val)
    (sg_publish_data : gmap string val) : string :=
  "Execute action called for action " +:+ name +:+ ". "
  +:+ "Parameters: " +:+ KatanaActions.py_str E params
  +:+ ". Publish Data: " +:+ KatanaActions.py_str E (VDict sg_publish_data).

(** The line [generate_actions] hands to [log_debug]. *)
Definition generate_line (E : Env) (sg_publish_data : gmap string val)
    (actions : list string) (ui_area : string) : string :=
  "Generate actions called for UI element " +:+ ui_area +:+ ". "
  +:+ "Actions: " +:+ KatanaActions.py_str E (VList (VStr <$> actions))
  +:+ ". Publish Data: " +:+ KatanaActions.py_str E (VDict sg_publish_data).

(** The engine as its attributes are set and its calls recorded. *)
Definition called (calls : list EngineCall) (self : Engine) : Engine :=
  {| katana_log := katana_log self;
     _menu_generator := _menu_generator self;
     engine_calls := engine_calls self ++ calls |}.

Definition with_logger (logger : Logger) (self : Engine) : Engine :=
  {| katana_log := Some logger;
     _menu_generator := _menu_generator self;
     engine_calls := engine_calls self |}.

Definition with_generator (generator : MenuGenerator) (self : Engine) : Engine :=
  {| katana_log := katana_log self;
     _menu_generator := Some generator;
     engine_calls := engine_calls self |}.

(** ** More samples *)

(** An engine object before [init_engine] has run. *)
Definition new_engine : Engine :=
  {| katana_log := None; _menu_generator := None; engine_calls := [] |}.

Definition sample_framework : Framework :=
  {| engine_str := "<Sgtk Engine: tk-katana, env: shot>";
     import_module := λ _, Ok tt;
     MenuGenerator_new := λ menu_name, Ok {| generator_menu_name := menu_name |};
     create_menu := λ _, Ok tt |}.

(** The sample studio with other settings. *)
Definition with_settings (E : Env) (new_settings : gmap string val) : Env :=
  {| settings := new_settings;
     _callback_map := _callback_map E;
     py_repr := py_repr E;
     format_exc := format_exc E;
     import_PyQt4 := import_PyQt4 E;
     get_publish_path := get_publish_path E;
     path_exists := path_exists E;
     tank_from_path := tank_from_path E;
     template_from_path := template_from_path E;
     get_fields := get_fields E |}.

(** The sample studio where no template matches any path. *)
Definition studio_without_templates : Env :=
  {| settings := settings studio;
     _callback_map := _callback_map studio;
     py_repr := py_repr studio;
     format_exc := format_exc studio;
     import_PyQt4 := Raise (Exception "cannot load the Qt libraries");
     get_publish_path := get_publish_path studio;
     path_exists := path_exists studio;
     tank_from_path := tank_from_path studio;
     template_from_path := λ _ _, Ok None;
     get_fields := get_fields studio |}.

(** The sample studio where the template matches but cannot parse the
    path into fields. *)
Definition studio_corrupt_template : Env :=
  {| settings := settings studio;
     _callback_map := _callback_map studio;
     py_repr := py_repr studio;
     format_exc := format_exc studio;
     import_PyQt4 := import_PyQt4 studio;
     get_publish_path := get_publish_path studio;
     path_exists := path_exists studio;
     tank_from_path := tank_from_path studio;
     template_from_path := template_from_path studio;
     get_fields := λ template _,
       Raise (TankError ("Template " +:+ template_name template
                         +:+ ": cannot parse the path")) |}.

(** ** Running computations *)

Lemma bind_run {A B} (c : M A) (f : A → M B) (w : World) :
  (c ≫= f) w =
  match c w with
  | (Ok a, w') => f a w'
  | (Raise e, w') => (Raise e, w')
  end.
Proof. reflexivity. Qed.

Lemma world_eta (w : World) :
  {| stdout := stdout w; host_calls := host_calls w; next_node := next_node w |} = w.
Proof. by destruct w. Qed.

Lemma printed_nil (w : World) : printed [] w = w.
Proof. unfold printed. rewrite app_nil_r. apply world_eta. Qed.

Lemma printed_printed (l1 l2 : list string) (w : World) :
  printed l2 (printed l1 w) = printed (l1 ++ l2) w.
Proof. unfold printed. simpl. by rewrite app_assoc. Qed.

Lemma print_run (line : string) (w : World) :
  print line w = (Ok tt, printed [line] w).
Proof. reflexivity. Qed.

Lemma debug_enabled_setting (E : Env) :
  debug_enabled E =
  match settings E !! "debug_logging" with
  | Some v => truthy v
  | None => false
  end.
Proof.
  unfold debug_enabled, KatanaEngine.get_setting.
  by destruct (settings E !! "debug_logging").
Qed.

Lemma log_debug_run (E : Env) (msg : string) (w : World) :
  KatanaEngine.log_debug E msg w =
  (Ok tt, printed (if debug_enabled E then ["Shotgun Debug: " +:+ msg] else []) w).
Proof.
  unfold KatanaEngine.log_debug. fold (debug_enabled E).
  destruct (debug_enabled E); [apply print_run|].
  by rewrite printed_nil.
Qed.

Lemma log_info_run (msg : string) (w : World) :
  KatanaEngine.log_info msg w = (Ok tt, printed ["Shotgun: " +:+ msg] w).
Proof. reflexivity. Qed.

Lemma log_error_run (msg : string) (w : World) :
  KatanaEngine.log_error msg w =
  (Ok tt, printed ["Shotgun: " +:+ msg; "Shotgun Error: " +:+ msg] w).
Proof.
  unfold KatanaEngine.log_error, KatanaEngine._display_message.
  rewrite bind_run, log_info_run, print_run.
  by rewrite printed_printed.
Qed.

Lemma log_warning_run (msg : string) (w : World) :
  KatanaEngine.log_warning msg w = (Ok tt, printed [msg] w).
Proof. reflexivity. Qed.

(** ** The engine *)

(** C6, as the specification states it, fails on the code: with
    [debug_logging] unset, [log_info] prints its line all the same, and
    [log_warning] prints the bare message with no prefix at all. *)
Lemma log_info_prints_with_debug_off :
  debug_enabled studio = false ∧
  stdout (after (KatanaEngine.log_info "hello") empty_world) = ["Shotgun: hello"] ∧
  stdout (after (KatanaEngine.log_warning "hello") empty_world) = ["hello"].
Proof. repeat split. Qed.

(** C6, amended.  Only [log_debug] is gated on the [debug_logging]
    setting: it prints the line "Shotgun Debug: msg" when the setting is
    true and nothing otherwise.  [log_info] always prints
    "Shotgun: msg"; [log_error] always prints "Shotgun: msg" and then
    "Shotgun Error: msg"; [log_warning] always prints the message alone.
    None of them raises or touches the node graph. *)
Theorem logging_methods_output (E : Env) (msg : string) (w : World) :
  KatanaEngine.log_debug E msg w =
    (Ok tt,
     printed (if match settings E !! "debug_logging" with
                 | Some v => truthy v
                 | None => false
                 end
              then ["Shotgun Debug: " +:+ msg] else []) w) ∧
  KatanaEngine.log_info msg w = (Ok tt, printed ["Shotgun: " +:+ msg] w) ∧
  KatanaEngine.log_error msg w =
    (Ok tt, printed ["Shotgun: " +:+ msg; "Shotgun Error: " +:+ msg] w) ∧
  KatanaEngine.log_warning msg w = (Ok tt, printed [msg] w).
Proof.
  split; [|split; [|split]].
  - rewrite log_debug_run. by rewrite debug_enabled_setting.
  - apply log_info_run.
  - apply log_error_run.
  - apply log_warning_run.
Qed.

(** C7.  When the callback map has no entry for a command id,
    [launch_command] returns normally, and all it has done is print the
    two lines of [log_error]; this holds whatever callbacks the map
    holds for other ids, so none of them ran. *)
Theorem launch_command_without_callback (E : Env) (cmd_id : string) (w : World) :
  _callback_map E !! cmd_id = None →
  KatanaEngine.launch_command E cmd_id w =
    (Ok tt,
     printed ["Shotgun: No callback found for id: " +:+ cmd_id;
              "Shotgun Error: No callback found for id: " +:+ cmd_id] w).
Proof.
  intros Hnone. unfold KatanaEngine.launch_command.
  rewrite Hnone. apply log_error_run.
Qed.

Lemma launch_command_without_callback_witness :
  _callback_map studio !! "open_loader" = Some failing_callback ∧
  _callback_map studio !! "publish" = None ∧
  KatanaEngine.launch_command studio "publish" empty_world =
    (Ok tt,
     printed ["Shotgun: No callback found for id: publish";
              "Shotgun Error: No callback found for id: publish"] empty_world).
Proof.
  split; [reflexivity|]. split; [reflexivity|].
  apply (launch_command_without_callback studio "publish" empty_world).
  reflexivity.
Defined.

Lemma define_qt_base_run (E : Env) (w : World) :
  KatanaEngine._define_qt_base E w =
  match import_PyQt4 E with
  | Ok (QtCore, QtGui, PyQt4_file) =>
      (Ok (<["dialog_base" := Entry_class (QDialog QtGui)]>
             (<["qt_gui" := Entry_QtGui QtGui]>
                (<["qt_core" := Entry_QtCore (KatanaEngine.hot_patch QtCore)]>
                   KatanaEngine.proxy_base))),
       printed (if debug_enabled E
                then ["Shotgun Debug: " +:+
                      ("Successfully initialized PyQt '" +:+ PYQT_VERSION_STR QtCore
                       +:+ "' located in " +:+ PyQt4_file +:+ ".")]
                else []) w)
  | Raise (ImportError _) => (Ok KatanaEngine.proxy_base, w)
  | Raise e =>
      (Ok KatanaEngine.proxy_base,
       printed (["Error setting up PyQt. PyQt based UI support "
                 +:+ "will not be available: " +:+ exn_message e]
                ++ (if debug_enabled E
                    then ["Shotgun Debug: " +:+ format_exc E e] else [])) w)
  end.
Proof.
  unfold KatanaEngine._define_qt_base, try_except.
  rewrite bind_run. unfold lift.
  destruct (import_PyQt4 E) as [[[QtCore QtGui] PyQt4_file]|e].
  - rewrite bind_run, log_debug_run. reflexivity.
  - destruct e; try reflexivity;
      rewrite bind_run, log_warning_run, bind_run, log_debug_run,
        printed_printed; reflexivity.
Qed.

(** C8.  [_define_qt_base] returns a dictionary from every world and
    never raises.  When the PyQt4 import succeeds, its [qt_core],
    [qt_gui] and [dialog_base] entries are the imported [QtCore] (with
    the PySide names patched in), the imported [QtGui] and its
    [QDialog], and their attributes can be read.  When the import
    raises, [qt_core] and [qt_gui] are proxies and [dialog_base] is
    [None]; a proxy raises the toolkit error with its descriptive
    message at every attribute access, and not before. *)
Theorem define_qt_base_never_raises (E : Env) (w : World) :
  ∃ base,
    result (KatanaEngine._define_qt_base E) w = Ok base ∧
    (∀ QtCore QtGui PyQt4_file,
       import_PyQt4 E = Ok (QtCore, QtGui, PyQt4_file) →
       base !! "qt_core" = Some (Entry_QtCore (KatanaEngine.hot_patch QtCore)) ∧
       base !! "qt_gui" = Some (Entry_QtGui QtGui) ∧
       base !! "dialog_base" = Some (Entry_class (QDialog QtGui)) ∧
       getattr (Entry_QtCore (KatanaEngine.hot_patch QtCore)) "Signal" = Ok (pyqtSignal QtCore) ∧
       getattr (Entry_QtCore (KatanaEngine.hot_patch QtCore)) "Slot" = Ok (pyqtSlot QtCore) ∧
       getattr (Entry_QtCore (KatanaEngine.hot_patch QtCore)) "Property" = Ok (pyqtProperty QtCore) ∧
       getattr (Entry_QtGui QtGui) "QDialog" = Ok (QDialog QtGui)) ∧
    (∀ e,
       import_PyQt4 E = Raise e →
       base !! "qt_core" = Some QTProxy ∧
       base !! "qt_gui" = Some QTProxy ∧
       base !! "dialog_base" = Some Entry_None) ∧
    (∀ attribute, getattr QTProxy attribute = Raise (TankError no_pyqt_message)).
Proof.
  unfold result. rewrite define_qt_base_run.
  destruct (import_PyQt4 E) as [[[QtCore QtGui] PyQt4_file]|e].
  - eexists. split; [reflexivity|]. split; [|split]; [|discriminate|reflexivity].
    intros ? ? ? [= <- <- <-]. repeat split.
  - exists KatanaEngine.proxy_base. split; [by destruct e|].
    split; [discriminate|]. split; [|reflexivity].
    intros _ _. repeat split.
Qed.

Lemma define_qt_base_never_raises_witness :
  (∃ base,
     result (KatanaEngine._define_qt_base studio) empty_world = Ok base ∧
     base !! "qt_core" = Some (Entry_QtCore (KatanaEngine.hot_patch sample_QtCore)) ∧
     base !! "dialog_base" = Some (Entry_class "PyQt4.QtGui.QDialog")) ∧
  (∃ base,
     result (KatanaEngine._define_qt_base studio_file_removed) empty_world = Ok base ∧
     base !! "qt_core" = Some QTProxy ∧
     getattr QTProxy "QApplication" = Raise (TankError no_pyqt_message)).
Proof.
  split.
  - destruct (define_qt_base_never_raises studio empty_world)
      as (base & Hrun & Himported & _ & _).
    destruct (Himported sample_QtCore sample_QtGui
                "/opt/katana/bin/python/PyQt4/__init__.pyc" eq_refl)
      as (Hcore & _ & Hdialog & _).
    exists base. split; [exact Hrun|]. split; [exact Hcore|exact Hdialog].
  - destruct (define_qt_base_never_raises studio_file_removed empty_world)
      as (base & Hrun & _ & Hraised & Hproxy).
    destruct (Hraised (ImportError "No module named PyQt4") eq_refl) as (Hcore & _).
    exists base. split; [exact Hrun|]. split; [exact Hcore|apply Hproxy].
Defined.

(** ** The actions hook *)

Lemma generate_actions_run (E : Env) (sg_publish_data : gmap string val)
    (actions : list string) (ui_area : string) (w : World) :
  ∃ line,
    KatanaActions.generate_actions E sg_publish_data actions ui_area w =
    (Ok (static_lookup actions),
     printed (if debug_enabled E then ["Shotgun Debug: " +:+ line] else []) w).
Proof.
  unfold KatanaActions.generate_actions, KatanaActions.app_log_debug.
  eexists. rewrite bind_run, log_debug_run. cbn [mret M_ret].
  f_equal. f_equal. unfold static_lookup, descriptor_table.
  rewrite !filter_cons, filter_nil. cbn [name].
  repeat case_bool_decide; repeat case_decide; (reflexivity || contradiction).
Qed.

(** One step of a computation that asks a service whose answer is known. *)
Ltac ask_service H := rewrite bind_run; unfold lift at 1; rewrite H.

Lemma kept_fields (fields : gmap string val) :
  (if bool_decide (is_Some (fields !! "SEQ")) then delete "SEQ" fields else fields)
  = delete "SEQ" fields.
Proof.
  case_bool_decide as Hseq; [reflexivity|].
  symmetry. apply delete_id. by apply eq_None_not_Some.
Qed.

Lemma create_node_missing (E : Env) (node_type path : string)
    (sg_publish_data : gmap string val) (asset_parameter : string) (w : World) :
  path_exists E path = false →
  KatanaActions._create_node E node_type path sg_publish_data asset_parameter w =
  (Raise (Exception ("File not found on disk - '" +:+ path +:+ "'")), w).
Proof.
  intros Hmissing. unfold KatanaActions._create_node. by rewrite Hmissing.
Qed.

Lemma create_node_run (E : Env) (node_type path : string)
    (sg_publish_data : gmap string val) (asset_parameter : string) (w : World)
    (template : Template) (fields : gmap string val) :
  template_resolves E path template fields →
  KatanaActions._create_node E node_type path sg_publish_data asset_parameter w =
  (Ok (next_node w),
   {| stdout := stdout w;
      host_calls := host_calls w ++
        creation_calls node_type asset_parameter (next_node w)
          (KatanaActions.py_str E (VDict (asset_dict template (delete "SEQ" fields))));
      next_node := S (next_node w) |}).
Proof.
  intros (Hexists & tk & Htk & Htemplate & Hfields).
  unfold KatanaActions._create_node. rewrite Hexists. cbn [negb].
  ask_service Htk. ask_service Htemplate.
  cbn [KatanaActions.template_get_fields]. ask_service Hfields.
  rewrite kept_fields.
  unfold creation_calls, asset_dict, KatanaActions.template_dot_name.
  unfold mbind, M_bind, mret, M_ret, GetRootNode, CreateNode, getParameter,
    setValue, host_call.
  cbn. rewrite <- !app_assoc. reflexivity.
Qed.

(** Without a matching template nothing is created: the [None] that
    [template_from_path] returns has no [get_fields]. *)
Lemma create_node_without_template (E : Env) (node_type path : string)
    (sg_publish_data : gmap string val) (asset_parameter : string) (w : World)
    (tk : Tk) :
  path_exists E path = true →
  tank_from_path E KatanaActions.project_path = Ok tk →
  template_from_path E tk path = Ok None →
  KatanaActions._create_node E node_type path sg_publish_data asset_parameter w =
  (Raise (AttributeError "'NoneType' object has no attribute 'get_fields'"), w).
Proof.
  intros Hexists Htk Htemplate.
  unfold KatanaActions._create_node. rewrite Hexists. cbn [negb].
  ask_service Htk. ask_service Htemplate. reflexivity.
Qed.


Lemma execute_action_run (E : Env) (name : string) (params : val)
    (sg_publish_data : gmap string val) (w : World) (path : string) :
  get_publish_path E sg_publish_data = Ok path →
  ∃ line,
    KatanaActions.execute_action E name params sg_publish_data w =
    if String.eqb name "create_node_Alembic_In" then
      dropped (KatanaActions._create_node E "Alembic_In" path sg_publish_data
                 "abcAsset" (logged E line w))
    else if String.eqb name "create_node_ImageRead" then
      dropped (KatanaActions._create_node E "ImageRead" path sg_publish_data
                 "file" (logged E line w))
    else (Ok VNone, logged E line w).
Proof.
  intros Hpath. unfold KatanaActions.execute_action, KatanaActions.app_log_debug.
  match goal with |- context [KatanaEngine.log_debug E ?l] => exists l end.
  rewrite bind_run, log_debug_run, bind_run.
  unfold lift at 1. rewrite Hpath. unfold logged.
  unfold mbind, M_bind, mret, M_ret, KatanaActions._open_project.
  destruct (String.eqb_spec name "open_project") as [->|_]; [reflexivity|].
  destruct (String.eqb_spec name "import_look_file") as [->|_]; [reflexivity|].
  destruct (String.eqb_spec name "create_node_Alembic_In") as [->|_].
  { cbn [String.eqb Ascii.eqb Bool.eqb].
    by destruct (KatanaActions._create_node _ _ _ _ _ _) as [[node|e] w']. }
  destruct (String.eqb_spec name "create_node_ImageRead") as [->|_]; [|reflexivity].
  by destruct (KatanaActions._create_node _ _ _ _ _ _) as [[node|e] w'].
Qed.

Lemma execute_action_creates (E : Env) (name node_type asset_parameter : string)
    (params : val) (sg_publish_data : gmap string val) (w : World)
    (path : string) (template : Template) (fields : gmap string val) :
  (name, node_type, asset_parameter) ∈
    [("create_node_Alembic_In", "Alembic_In", "abcAsset");
     ("create_node_ImageRead", "ImageRead", "file")] →
  resolves E sg_publish_data path template fields →
  ∃ line,
    KatanaActions.execute_action E name params sg_publish_data w =
    (Ok VNone,
     {| stdout := stdout (logged E line w);
        host_calls := host_calls w ++
          creation_calls node_type asset_parameter (next_node w)
            (KatanaActions.py_str E (VDict (asset_dict template (delete "SEQ" fields))));
        next_node := S (next_node w) |}).
Proof.
  intros Hname [Hpath Htemplate].
  destruct (execute_action_run E name params sg_publish_data w path Hpath)
    as [line Hrun].
  exists line. rewrite Hrun.
  set_unfold in Hname.
  destruct Hname as [[= -> -> ->]|[[= -> -> ->]|[]]]; cbn [String.eqb Ascii.eqb Bool.eqb];
    by rewrite (create_node_run _ _ _ _ _ _ template fields).
Qed.

(** C2, as the specification states it, fails on the code: with a
    publish whose file is gone from disk, the action [open_project]
    returns normally. *)
Lemma open_project_returns_on_missing_path :
  get_publish_path studio_file_removed sample_publish = Ok "/proj/shot010/cache.abc" ∧
  path_exists studio_file_removed "/proj/shot010/cache.abc" = false ∧
  result (KatanaActions.execute_action studio_file_removed "open_project" VNone
            sample_publish) empty_world = Ok VNone.
Proof. repeat split. Qed.

(** C2, amended.  When the resolved publish path does not exist on disk,
    [execute_action] with one of the two node-creation names raises the
    generic exception "File not found on disk - 'path'", and with any
    other name it returns [None]; in both cases no call into the node
    graph has been made. *)
Theorem execute_action_missing_path (E : Env) (name : string) (params : val)
    (sg_publish_data : gmap string val) (path : string) (w : World) :
  get_publish_path E sg_publish_data = Ok path →
  path_exists E path = false →
  host_calls (after (KatanaActions.execute_action E name params sg_publish_data) w)
    = host_calls w ∧
  (name = "create_node_Alembic_In" ∨ name = "create_node_ImageRead" →
   result (KatanaActions.execute_action E name params sg_publish_data) w
     = Raise (Exception ("File not found on disk - '" +:+ path +:+ "'"))) ∧
  (name ≠ "create_node_Alembic_In" → name ≠ "create_node_ImageRead" →
   result (KatanaActions.execute_action E name params sg_publish_data) w = Ok VNone).
Proof.
  intros Hpath Hmissing. unfold result, after.
  destruct (execute_action_run E name params sg_publish_data w path Hpath)
    as [line ->].
  rewrite !create_node_missing by done.
  destruct (String.eqb_spec name "create_node_Alembic_In") as [->|Halembic];
    [by repeat split|].
  destruct (String.eqb_spec name "create_node_ImageRead") as [->|Himage];
    [by repeat split|].
  split; [done|]. split; [by intros [?|?]|done].
Qed.

Lemma execute_action_missing_path_witness :
  host_calls (after (KatanaActions.execute_action studio_file_removed
                       "create_node_Alembic_In" VNone sample_publish) empty_world) = [] ∧
  result (KatanaActions.execute_action studio_file_removed
            "create_node_Alembic_In" VNone sample_publish) empty_world
    = Raise (Exception "File not found on disk - '/proj/shot010/cache.abc'").
Proof.
  destruct (execute_action_missing_path studio_file_removed "create_node_Alembic_In"
              VNone sample_publish "/proj/shot010/cache.abc" empty_world
              eq_refl eq_refl) as (Hhost & Hraise & _).
  split; [exact Hhost|]. apply Hraise. by left.
Defined.

(** C3, as the specification states it, fails on the code: in the
    studio where no template matches, the path of the publish is
    resolved and is on disk, yet [execute_action] with the name
    "create_node_Alembic_In" raises and makes no node-creation call,
    and no call into the node graph at all. *)
Lemma existing_path_without_template_creates_nothing :
  get_publish_path studio_without_templates sample_publish
    = Ok "/proj/shot010/cache.abc" ∧
  path_exists studio_without_templates "/proj/shot010/cache.abc" = true ∧
  result (KatanaActions.execute_action studio_without_templates
            "create_node_Alembic_In" VNone sample_publish) empty_world
    = Raise (AttributeError "'NoneType' object has no attribute 'get_fields'") ∧
  creations (after (KatanaActions.execute_action studio_without_templates
                      "create_node_Alembic_In" VNone sample_publish) empty_world)
    = [] ∧
  host_calls (after (KatanaActions.execute_action studio_without_templates
                       "create_node_Alembic_In" VNone sample_publish) empty_world)
    = [].
Proof. repeat split. Qed.

(** C3, amended.  Where the toolkit resolves the publish (its path is
    resolved and on disk, the project of the hard-coded path is a
    toolkit project, a template matches the path and yields its
    fields), [execute_action] with the name "create_node_Alembic_In"
    makes exactly one node-creation call, for the type "Alembic_In"
    under the root, and sets the parameter "abcAsset" of the node it
    got; with "create_node_ImageRead" the type is "ImageRead" and the
    parameter is "file". *)
Theorem execute_action_creates_node (E : Env) (params : val)
    (sg_publish_data : gmap string val) (path : string) (template : Template)
    (fields : gmap string val) (w : World) :
  resolves E sg_publish_data path template fields →
  (∃ value,
     result (KatanaActions.execute_action E "create_node_Alembic_In" params
               sg_publish_data) w = Ok VNone ∧
     host_calls (after (KatanaActions.execute_action E "create_node_Alembic_In"
                          params sg_publish_data) w)
       = host_calls w ++ creation_calls "Alembic_In" "abcAsset" (next_node w) value ∧
     creations (after (KatanaActions.execute_action E "create_node_Alembic_In"
                         params sg_publish_data) w)
       = creations w ++ [Call_CreateNode "Alembic_In" root_node (next_node w)]) ∧
  (∃ value,
     result (KatanaActions.execute_action E "create_node_ImageRead" params
               sg_publish_data) w = Ok VNone ∧
     host_calls (after (KatanaActions.execute_action E "create_node_ImageRead"
                          params sg_publish_data) w)
       = host_calls w ++ creation_calls "ImageRead" "file" (next_node w) value ∧
     creations (after (KatanaActions.execute_action E "create_node_ImageRead"
                         params sg_publish_data) w)
       = creations w ++ [Call_CreateNode "ImageRead" root_node (next_node w)]).
Proof.
  intros Hresolves. unfold result, after, creations. split.
  - destruct (execute_action_creates E "create_node_Alembic_In" "Alembic_In"
                "abcAsset" params sg_publish_data w path template fields)
      as [line ->]; [set_solver|done|].
    eexists. split; [reflexivity|]. split; [reflexivity|].
    cbn [snd host_calls]. by rewrite filter_app.
  - destruct (execute_action_creates E "create_node_ImageRead" "ImageRead"
                "file" params sg_publish_data w path template fields)
      as [line ->]; [set_solver|done|].
    eexists. split; [reflexivity|]. split; [reflexivity|].
    cbn [snd host_calls]. by rewrite filter_app.
Qed.

Lemma studio_resolves :
  resolves studio sample_publish "/proj/shot010/cache.abc" sample_template sample_fields.
Proof.
  split; [reflexivity|]. split; [reflexivity|].
  exists {| tk_project_root := KatanaActions.project_path |}. by repeat split.
Qed.

Lemma execute_action_creates_node_witness :
  resolves studio sample_publish "/proj/shot010/cache.abc" sample_template sample_fields ∧
  creations (after (KatanaActions.execute_action studio "create_node_Alembic_In"
                      VNone sample_publish) empty_world)
    = [Call_CreateNode "Alembic_In" root_node 1] ∧
  creations (after (KatanaActions.execute_action studio "create_node_ImageRead"
                      VNone sample_publish) empty_world)
    = [Call_CreateNode "ImageRead" root_node 1].
Proof.
  split; [exact studio_resolves|].
  destruct (execute_action_creates_node studio VNone sample_publish
              "/proj/shot010/cache.abc" sample_template sample_fields empty_world
              studio_resolves)
    as ((value1 & _ & _ & Halembic) & (value2 & _ & _ & Himage)).
  split; [exact Halembic|exact Himage].
Defined.

(** In the sample studio the Alembic action makes these four calls; the
    string it sets has the template name and the fields without "SEQ". *)
Example studio_imports_alembic :
  host_calls (after (KatanaActions.execute_action studio "create_node_Alembic_In"
                       VNone sample_publish) empty_world)
  = [ Call_GetRootNode;
      Call_CreateNode "Alembic_In" root_node 1;
      Call_getParameter 1 "abcAsset";
      Call_setValue {| param_node := 1; param_name := "abcAsset" |}
        "{'fields': {'Shot': 'shot010', 'version': 3}, 'template': 'shot_alembic_cache'}"
        0 ].
Proof. vm_compute. reflexivity. Qed.

Lemma studio_template_resolves :
  template_resolves studio "/proj/shot010/cache.abc" sample_template sample_fields.
Proof. exact (proj2 studio_resolves). Qed.

Lemma with_fields_resolves (E : Env) (path : string) (template : Template)
    (fields other : gmap string val) :
  template_resolves E path template fields →
  template_resolves (with_fields E other) path template other.
Proof.
  intros (Hexists & tk & Htk & Htemplate & _).
  split; [exact Hexists|]. exists tk. by repeat split.
Qed.

(** C4.  Where the toolkit resolves the path to a template and its
    fields, the string [_create_node] writes into the asset parameter
    is the serialization of a dictionary whose "fields" entry has no
    "SEQ" key and agrees with the resolved fields on every other key;
    two resolutions that differ in "SEQ" only make [_create_node] write
    the same string. *)
Theorem create_node_drops_SEQ (E : Env) (node_type path : string)
    (sg_publish_data : gmap string val) (asset_parameter : string) (w : World)
    (template : Template) (fields : gmap string val) :
  template_resolves E path template fields →
  ∃ kept parameter_dict,
    kept !! "SEQ" = None ∧
    (∀ key, key ≠ "SEQ" → kept !! key = fields !! key) ∧
    parameter_dict !! "fields" = Some (VDict kept) ∧
    parameter_dict !! "template" = Some (VStr (template_name template)) ∧
    dom parameter_dict = {["fields"; "template"]} ∧
    host_calls (after (KatanaActions._create_node E node_type path sg_publish_data
                         asset_parameter) w)
      = host_calls w ++
        creation_calls node_type asset_parameter (next_node w)
          (KatanaActions.py_str E (VDict parameter_dict)) ∧
    (∀ other,
       delete "SEQ" other = delete "SEQ" fields →
       KatanaActions._create_node (with_fields E other) node_type path
         sg_publish_data asset_parameter w
       = KatanaActions._create_node E node_type path sg_publish_data
           asset_parameter w).
Proof.
  intros Hresolves.
  exists (delete "SEQ" fields), (asset_dict template (delete "SEQ" fields)).
  split; [apply lookup_delete_eq|].
  split; [by intros key Hkey; apply lookup_delete_ne|].
  split; [reflexivity|]. split; [reflexivity|].
  split; [unfold asset_dict; set_solver|].
  split.
  - unfold after. by rewrite (create_node_run _ _ _ _ _ _ template fields).
  - intros other Hother.
    rewrite (create_node_run (with_fields E other) _ _ _ _ _ template other)
      by by eapply with_fields_resolves.
    rewrite (create_node_run E _ _ _ _ _ template fields) by done.
    by rewrite Hother.
Qed.

Lemma create_node_drops_SEQ_witness :
  sample_fields !! "SEQ" = Some (VStr "FORMAT: %d") ∧
  ∃ kept parameter_dict,
    kept !! "SEQ" = None ∧
    kept !! "Shot" = Some (VStr "shot010") ∧
    parameter_dict !! "fields" = Some (VDict kept) ∧
    host_calls (after (KatanaActions._create_node studio "Alembic_In"
                         "/proj/shot010/cache.abc" sample_publish "abcAsset")
                  empty_world)
      = creation_calls "Alembic_In" "abcAsset" 1
          (KatanaActions.py_str studio (VDict parameter_dict)).
Proof.
  split; [reflexivity|].
  destruct (create_node_drops_SEQ studio "Alembic_In" "/proj/shot010/cache.abc"
              sample_publish "abcAsset" empty_world sample_template sample_fields
              studio_template_resolves)
    as (kept & parameter_dict & Hseq & Hothers & Hfields & _ & _ & Hcalls & _).
  exists kept, parameter_dict.
  split; [exact Hseq|]. split; [|split; [exact Hfields|exact Hcalls]].
  rewrite (Hothers "Shot"); [reflexivity|discriminate].
Defined.

(** C5, as the specification states it, fails on the code: in the
    sample studio [_create_node] returns the handle 1 of the node it
    created, and [execute_action] returns [None]. *)
Lemma execute_action_returns_None :
  resolves studio sample_publish "/proj/shot010/cache.abc" sample_template sample_fields ∧
  result (KatanaActions._create_node studio "Alembic_In" "/proj/shot010/cache.abc"
            sample_publish "abcAsset") empty_world = Ok 1 ∧
  Call_CreateNode "Alembic_In" root_node 1 ∈
    host_calls (after (KatanaActions.execute_action studio "create_node_Alembic_In"
                         VNone sample_publish) empty_world) ∧
  result (KatanaActions.execute_action studio "create_node_Alembic_In" VNone
            sample_publish) empty_world = Ok VNone.
Proof.
  split; [exact studio_resolves|]. split; [reflexivity|].
  split; [|reflexivity].
  apply list_elem_of_In. cbn. right. left. reflexivity.
Qed.

(** C5, amended.  Where the toolkit resolves the publish, [_create_node]
    returns the handle of the node it created and configured;
    [execute_action], for either node-creation name, makes that call,
    drops the handle and returns [None]. *)
Theorem create_node_returns_handle (E : Env) (name node_type asset_parameter : string)
    (params : val) (sg_publish_data : gmap string val) (path : string)
    (template : Template) (fields : gmap string val) (w : World) :
  (name, node_type, asset_parameter) ∈
    [("create_node_Alembic_In", "Alembic_In", "abcAsset");
     ("create_node_ImageRead", "ImageRead", "file")] →
  resolves E sg_publish_data path template fields →
  ∃ value,
    KatanaActions._create_node E node_type path sg_publish_data asset_parameter w
      = (Ok (next_node w),
         {| stdout := stdout w;
            host_calls := host_calls w ++
              creation_calls node_type asset_parameter (next_node w) value;
            next_node := S (next_node w) |}) ∧
    result (KatanaActions.execute_action E name params sg_publish_data) w = Ok VNone ∧
    host_calls (after (KatanaActions.execute_action E name params sg_publish_data) w)
      = host_calls w ++ creation_calls node_type asset_parameter (next_node w) value.
Proof.
  intros Hname Hresolves.
  destruct (execute_action_creates E name node_type asset_parameter params
              sg_publish_data w path template fields Hname Hresolves)
    as [line Hrun].
  eexists. split.
  - apply (create_node_run _ _ _ _ _ _ template fields). apply Hresolves.
  - unfold result, after. by rewrite Hrun.
Qed.

Lemma create_node_returns_handle_witness :
  result (KatanaActions._create_node studio "ImageRead" "/proj/shot010/cache.abc"
            sample_publish "file") empty_world = Ok 1 ∧
  result (KatanaActions.execute_action studio "create_node_ImageRead" VNone
            sample_publish) empty_world = Ok VNone.
Proof.
  destruct (create_node_returns_handle studio "create_node_ImageRead" "ImageRead"
              "file" VNone sample_publish "/proj/shot010/cache.abc" sample_template
              sample_fields empty_world)
    as (value & Hnode & Hresult & _).
  - apply list_elem_of_In. right. left. reflexivity.
  - exact studio_resolves.
  - split; [|exact Hresult]. unfold result. by rewrite Hnode.
Defined.



Lemma known_actions_names : name <$> descriptor_table = known_actions.
Proof. reflexivity. Qed.

Lemma filter_agree {A} (P Q : A → Prop) `{!∀ x, Decision (P x), !∀ x, Decision (Q x)}
    (l : list A) :
  (∀ x, x ∈ l → P x ↔ Q x) → filter P l = filter Q l.
Proof.
  induction l as [|x l IH]; intros Hagree; [reflexivity|].
  rewrite !filter_cons.
  rewrite IH by (intros y Hy; apply Hagree; by right).
  destruct (Hagree x) as [HPQ HQP]; [by left|].
  destruct (decide (P x)), (decide (Q x)); tauto || reflexivity.
Qed.

Lemma static_lookup_ext (actions1 actions2 : list string) :
  (∀ n, n ∈ known_actions → n ∈ actions1 ↔ n ∈ actions2) →
  static_lookup actions1 = static_lookup actions2.
Proof.
  intros Hsame. unfold static_lookup. apply filter_agree.
  intros d Hd. apply Hsame. rewrite <- known_actions_names.
  by apply list_elem_of_fmap_2.
Qed.

Lemma static_lookup_names (actions : list string) :
  name <$> static_lookup actions `sublist_of` known_actions.
Proof.
  rewrite <- known_actions_names. apply fmap_sublist, sublist_filter.
Qed.

Lemma known_actions_NoDup : NoDup known_actions.
Proof. compute_done. Qed.

Lemma static_lookup_named (actions : list string) (n : string) :
  n ∈ known_actions → n ∈ actions →
  ∃ d, named n (static_lookup actions) = [d] ∧ name d = n ∧
       caption d ≠ "" ∧ description d ≠ "".
Proof.
  intros Hknown Hin. unfold named, static_lookup.
  rewrite list_filter_filter. unfold descriptor_table.
  rewrite !filter_cons, filter_nil. cbn [name].
  set_unfold in Hknown.
  destruct Hknown as [->|[->|[->|[->|[]]]]];
    repeat case_decide;
    repeat match goal with H : _ = _ ∧ _ |- _ => destruct H as [H _] end;
    try discriminate;
    try (exfalso; match goal with H : ¬ _ |- _ => apply H; by split end);
    by eexists.
Qed.

(** C1.  [generate_actions] always returns a list.  For each of the four
    known names that occurs in the input list, the list has exactly one
    descriptor with that name, and its caption and description are not
    empty; every descriptor of the list carries a known name that occurs
    in the input, so other names contribute nothing. *)
Theorem generate_actions_descriptors (E : Env) (sg_publish_data : gmap string val)
    (actions : list string) (ui_area : string) (w : World) :
  ∃ instances,
    result (KatanaActions.generate_actions E sg_publish_data actions ui_area) w
      = Ok instances ∧
    (∀ n, n ∈ known_actions → n ∈ actions →
       ∃ d, named n instances = [d] ∧ name d = n ∧
            caption d ≠ "" ∧ description d ≠ "") ∧
    (∀ d, d ∈ instances → name d ∈ known_actions ∧ name d ∈ actions) ∧
    (∀ n, ¬ (n ∈ known_actions ∧ n ∈ actions) → named n instances = []).
Proof.
  exists (static_lookup actions). unfold result.
  destruct (generate_actions_run E sg_publish_data actions ui_area w) as [line ->].
  split; [reflexivity|].
  assert (Hsound : ∀ d, d ∈ static_lookup actions →
                        name d ∈ known_actions ∧ name d ∈ actions).
  { intros d [Hd Htable]%list_elem_of_filter. split; [|exact Hd].
    rewrite <- known_actions_names. by apply list_elem_of_fmap_2. }
  split; [apply static_lookup_named|]. split; [exact Hsound|].
  intros n Hn. unfold named.
  destruct (filter (λ d, name d = n) (static_lookup actions)) as [|d rest] eqn:Hfilter;
    [reflexivity|].
  assert (Hd : d ∈ filter (λ d, name d = n) (static_lookup actions))
    by (rewrite Hfilter; by left).
  apply list_elem_of_filter in Hd as [<- Hd]. destruct Hn. by apply Hsound.
Qed.

Lemma generate_actions_descriptors_witness :
  ∃ instances,
    result (KatanaActions.generate_actions studio sample_publish
              ["reference"; "create_node_ImageRead"; "open_project"] "main")
      empty_world = Ok instances ∧
    (∃ d, named "open_project" instances = [d] ∧ caption d ≠ "") ∧
    named "reference" instances = [].
Proof.
  destruct (generate_actions_descriptors studio sample_publish
              ["reference"; "create_node_ImageRead"; "open_project"] "main"
              empty_world)
    as (instances & Hresult & Hknown & _ & Hother).
  exists instances. split; [exact Hresult|]. split.
  - destruct (Hknown "open_project") as (d & Hd & _ & Hcaption & _).
    + compute_done.
    + compute_done.
    + by exists d.
  - apply Hother. intros [Hknown' _]. revert Hknown'. compute_done.
Defined.

(** C9.  What [generate_actions] returns depends on nothing but which of
    the four known names are members of the input list: two calls whose
    lists have the same known members return the same list, whatever
    the publish, the area, the services and the world; so the result is
    the same for a permutation of the input and for an input with
    repetitions.  The names of the returned descriptors form a sublist
    of open_project, import_look_file, create_node_Alembic_In,
    create_node_ImageRead, hence come in that order, each at most once,
    and there are at most four. *)
Theorem generate_actions_membership_only (E : Env)
    (sg_publish_data : gmap string val) (actions : list string)
    (ui_area : string) (w : World) :
  (∀ E' sg_publish_data' actions' ui_area' w',
     (∀ n, n ∈ known_actions → n ∈ actions ↔ n ∈ actions') →
     result (KatanaActions.generate_actions E' sg_publish_data' actions' ui_area') w'
     = result (KatanaActions.generate_actions E sg_publish_data actions ui_area) w) ∧
  (∀ actions',
     actions' ≡ₚ actions →
     result (KatanaActions.generate_actions E sg_publish_data actions' ui_area) w
     = result (KatanaActions.generate_actions E sg_publish_data actions ui_area) w) ∧
  (∀ repeated,
     repeated ⊆ actions →
     result (KatanaActions.generate_actions E sg_publish_data (repeated ++ actions)
               ui_area) w
     = result (KatanaActions.generate_actions E sg_publish_data actions ui_area) w) ∧
  ∃ instances,
    result (KatanaActions.generate_actions E sg_publish_data actions ui_area) w
      = Ok instances ∧
    name <$> instances `sublist_of` known_actions ∧
    NoDup (name <$> instances) ∧
    (length instances ≤ 4)%nat.
Proof.
  assert (Hlookup : ∀ E' sg_publish_data' actions' ui_area' w',
    result (KatanaActions.generate_actions E' sg_publish_data' actions' ui_area') w'
    = Ok (static_lookup actions')).
  { intros E' pd' actions' ui_area' w'. unfold result.
    by destruct (generate_actions_run E' pd' actions' ui_area' w') as [line ->]. }
  assert (Hsame : ∀ E' sg_publish_data' actions' ui_area' w',
     (∀ n, n ∈ known_actions → n ∈ actions ↔ n ∈ actions') →
     result (KatanaActions.generate_actions E' sg_publish_data' actions' ui_area') w'
     = result (KatanaActions.generate_actions E sg_publish_data actions ui_area) w).
  { intros E' pd' actions' ui_area' w' Hmembers. rewrite !Hlookup.
    f_equal. symmetry. by apply static_lookup_ext. }
  split; [exact Hsame|]. split; [|split].
  - intros actions' Hperm. apply Hsame. intros n _. by rewrite Hperm.
  - intros repeated Hrepeated. apply Hsame. intros n _.
    rewrite elem_of_app. split; [by right|].
    intros [Hn|Hn]; [by apply Hrepeated|exact Hn].
  - exists (static_lookup actions). split; [apply Hlookup|].
    pose proof (static_lookup_names actions) as Hsub.
    split; [exact Hsub|]. split.
    + eapply sublist_NoDup; [apply known_actions_NoDup|exact Hsub].
    + apply sublist_length in Hsub. by rewrite length_fmap in Hsub.
Qed.

Lemma generate_actions_membership_only_witness :
  result (KatanaActions.generate_actions studio_file_removed ∅
            ["create_node_ImageRead"; "open_project"; "open_project"; "reference"]
            "details") (printed ["started"] empty_world)
  = result (KatanaActions.generate_actions studio sample_publish
              ["open_project"; "create_node_ImageRead"] "main") empty_world.
Proof.
  destruct (generate_actions_membership_only studio sample_publish
              ["open_project"; "create_node_ImageRead"] "main" empty_world)
    as (Hsame & _).
  apply Hsame. intros n Hn.
  set_unfold in Hn. destruct Hn as [->|[->|[->|[->|[]]]]]; compute_done.
Defined.

(** ** The hook, case by case *)

Lemma create_node_resolution (E : Env) (node_type path : string)
    (sg_publish_data : gmap string val) (asset_parameter : string) (w : World) :
  KatanaActions._create_node E node_type path sg_publish_data asset_parameter w =
  match resolution E path with
  | Raise e => (Raise e, w)
  | Ok (template, fields) =>
      (Ok (next_node w),
       created node_type asset_parameter
         (KatanaActions.py_str E (VDict (asset_dict template (delete "SEQ" fields)))) w)
  end.
Proof.
  unfold resolution.
  destruct (path_exists E path) eqn:Hexists; cbn [negb];
    [|by apply create_node_missing].
  destruct (tank_from_path E KatanaActions.project_path) as [tk|e] eqn:Htk.
  2:{ unfold KatanaActions._create_node. rewrite Hexists. cbn [negb].
      by ask_service Htk. }
  destruct (template_from_path E tk path) as [[template|]|e] eqn:Htemplate.
  - destruct (get_fields E template path) as [fields|e] eqn:Hfields.
    + apply (create_node_run _ _ _ _ _ _ template fields).
      split; [exact Hexists|]. by exists tk.
    + unfold KatanaActions._create_node. rewrite Hexists. cbn [negb].
      ask_service Htk. ask_service Htemplate.
      cbn [KatanaActions.template_get_fields]. by ask_service Hfields.
  - by apply (create_node_without_template _ _ _ _ _ _ tk).
  - unfold KatanaActions._create_node. rewrite Hexists. cbn [negb].
    ask_service Htk. by ask_service Htemplate.
Qed.

Lemma execute_action_cases (E : Env) (name : string) (params : val)
    (sg_publish_data : gmap string val) (w : World) :
  KatanaActions.execute_action E name params sg_publish_data w =
  match get_publish_path E sg_publish_data with
  | Raise e => (Raise e, logged E (execute_line E name params sg_publish_data) w)
  | Ok path =>
      if String.eqb name "create_node_Alembic_In" then
        dropped (KatanaActions._create_node E "Alembic_In" path sg_publish_data
                   "abcAsset" (logged E (execute_line E name params sg_publish_data) w))
      else if String.eqb name "create_node_ImageRead" then
        dropped (KatanaActions._create_node E "ImageRead" path sg_publish_data
                   "file" (logged E (execute_line E name params sg_publish_data) w))
      else (Ok VNone, logged E (execute_line E name params sg_publish_data) w)
  end.
Proof.
  unfold KatanaActions.execute_action, KatanaActions.app_log_debug.
  rewrite bind_run, log_debug_run, bind_run. unfold lift at 1.
  fold (execute_line E name params sg_publish_data).
  fold (logged E (execute_line E name params sg_publish_data) w).
  destruct (get_publish_path E sg_publish_data) as [path|e]; [|reflexivity].
  unfold mbind, M_bind, mret, M_ret, KatanaActions._open_project.
  destruct (String.eqb_spec name "open_project") as [->|_]; [reflexivity|].
  destruct (String.eqb_spec name "import_look_file") as [->|_]; [reflexivity|].
  destruct (String.eqb_spec name "create_node_Alembic_In") as [->|_].
  { cbn [String.eqb Ascii.eqb Bool.eqb].
    by destruct (KatanaActions._create_node _ _ _ _ _ _) as [[node|e] w']. }
  destruct (String.eqb_spec name "create_node_ImageRead") as [->|_]; [|reflexivity].
  by destruct (KatanaActions._create_node _ _ _ _ _ _) as [[node|e] w'].
Qed.

(** X1.  [generate_actions] is a static lookup: it returns the entries
    of the fixed table of four descriptors whose name occurs in the
    input list, in the order of the table, and all it does besides is
    hand one line to [log_debug]. *)
Theorem generate_actions_is_static_lookup (E : Env)
    (sg_publish_data : gmap string val) (actions : list string)
    (ui_area : string) (w : World) :
  KatanaActions.generate_actions E sg_publish_data actions ui_area w =
  (Ok (filter (λ d, name d ∈ actions) descriptor_table),
   printed (if debug_enabled E
            then ["Shotgun Debug: " +:+
                  generate_line E sg_publish_data actions ui_area]
            else []) w).
Proof.
  unfold KatanaActions.generate_actions, KatanaActions.app_log_debug.
  rewrite bind_run, log_debug_run. fold (generate_line E sg_publish_data actions ui_area).
  cbn [mret M_ret]. f_equal. f_equal. unfold descriptor_table.
  rewrite !filter_cons, filter_nil. cbn [name].
  repeat case_bool_decide; repeat case_decide; (reflexivity || contradiction).
Qed.

(** X2.  [generate_actions] returns the empty list exactly when none of
    the four known names is in the input list: an empty input, or one
    of unknown names only, gets no action at all. *)
Theorem generate_actions_empty_iff (E : Env) (sg_publish_data : gmap string val)
    (actions : list string) (ui_area : string) (w : World) :
  result (KatanaActions.generate_actions E sg_publish_data actions ui_area) w = Ok []
  ↔ ∀ n, n ∈ known_actions → n ∉ actions.
Proof.
  unfold result.
  destruct (generate_actions_run E sg_publish_data actions ui_area w) as [line ->].
  cbn [fst]. split.
  - intros [= Hempty] n Hknown Hin.
    destruct (static_lookup_named actions n Hknown Hin) as (d & Hd & _).
    rewrite Hempty in Hd. discriminate Hd.
  - intros Hnone. f_equal.
    destruct (static_lookup actions) as [|d rest] eqn:Hlookup; [reflexivity|].
    assert (Hd : d ∈ static_lookup actions) by (rewrite Hlookup; by left).
    apply list_elem_of_filter in Hd as [Hin Htable].
    destruct (Hnone (name d)); [|exact Hin].
    rewrite <- known_actions_names. by apply list_elem_of_fmap_2.
Qed.

Lemma generate_actions_empty_iff_witness :
  result (KatanaActions.generate_actions studio sample_publish [] "main") empty_world
    = Ok [] ∧
  result (KatanaActions.generate_actions studio sample_publish
            ["reference"; "import"] "main") empty_world = Ok [].
Proof.
  split.
  - apply (generate_actions_empty_iff studio sample_publish [] "main" empty_world).
    intros n _. apply not_elem_of_nil.
  - apply (generate_actions_empty_iff studio sample_publish ["reference"; "import"]
             "main" empty_world).
    intros n Hknown. set_unfold in Hknown.
    destruct Hknown as [->|[->|[->|[->|[]]]]]; compute_done.
Defined.

(** X3.  When the path of the publish cannot be resolved,
    [execute_action] raises the exception of [get_publish_path] for
    every action name, the two that would do nothing included; it has
    handed its line to [log_debug] and made no call into the node
    graph. *)
Theorem execute_action_path_failure (E : Env) (name : string) (params : val)
    (sg_publish_data : gmap string val) (w : World) (e : exn) :
  get_publish_path E sg_publish_data = Raise e →
  KatanaActions.execute_action E name params sg_publish_data w =
  (Raise e,
   printed (if debug_enabled E
            then ["Shotgun Debug: " +:+ execute_line E name params sg_publish_data]
            else []) w).
Proof.
  intros Hpath. rewrite execute_action_cases. by rewrite Hpath.
Qed.

Lemma execute_action_path_failure_witness :
  KatanaActions.execute_action studio "open_project" VNone ∅ empty_world =
  (Raise (TankError "Path field for this publish is None"), empty_world).
Proof.
  rewrite (execute_action_path_failure studio "open_project" VNone ∅ empty_world
             (TankError "Path field for this publish is None"));
    reflexivity.
Defined.

(** X4.  With a name other than "create_node_Alembic_In" and
    "create_node_ImageRead", known or not, [execute_action] returns
    [None] once the path is resolved: it prints at most its debug line
    and asks neither the file system nor the toolkit nor the node
    graph, so it does the same whether the file exists or not. *)
Theorem execute_action_other_names (E : Env) (name : string) (params : val)
    (sg_publish_data : gmap string val) (path : string) (w : World) :
  name ≠ "create_node_Alembic_In" →
  name ≠ "create_node_ImageRead" →
  get_publish_path E sg_publish_data = Ok path →
  KatanaActions.execute_action E name params sg_publish_data w =
  (Ok VNone,
   printed (if debug_enabled E
            then ["Shotgun Debug: " +:+ execute_line E name params sg_publish_data]
            else []) w).
Proof.
  intros Halembic Himage Hpath. rewrite execute_action_cases, Hpath.
  destruct (String.eqb_spec name "create_node_Alembic_In"); [done|].
  by destruct (String.eqb_spec name "create_node_ImageRead").
Qed.

Lemma execute_action_other_names_witness :
  KatanaActions.execute_action studio "open_project" VNone sample_publish empty_world
    = (Ok VNone, empty_world) ∧
  KatanaActions.execute_action studio_file_removed "reference" VNone sample_publish
    empty_world = (Ok VNone, empty_world).
Proof.
  split.
  - rewrite (execute_action_other_names studio "open_project" VNone sample_publish
               "/proj/shot010/cache.abc" empty_world);
      [reflexivity|discriminate|discriminate|reflexivity].
  - rewrite (execute_action_other_names studio_file_removed "reference" VNone
               sample_publish "/proj/shot010/cache.abc" empty_world);
      [reflexivity|discriminate|discriminate|reflexivity].
Defined.

(** X5.  An exception of the toolkit stops [_create_node] before it
    reaches the node graph.  When the file is on disk and
    [tank_from_path], [template_from_path] or [get_fields] raises,
    [_create_node] raises that same exception, unchanged, and the world
    is as it was: no call into the node graph has been made. *)
Theorem create_node_toolkit_failure (E : Env) (node_type path : string)
    (sg_publish_data : gmap string val) (asset_parameter : string) (w : World)
    (e : exn) :
  path_exists E path = true →
  (tank_from_path E KatanaActions.project_path = Raise e ∨
   ∃ tk,
     tank_from_path E KatanaActions.project_path = Ok tk ∧
     (template_from_path E tk path = Raise e ∨
      ∃ template,
        template_from_path E tk path = Ok (Some template) ∧
        get_fields E template path = Raise e)) →
  KatanaActions._create_node E node_type path sg_publish_data asset_parameter w
    = (Raise e, w).
Proof.
  intros Hexists Hfailure. rewrite create_node_resolution. unfold resolution.
  rewrite Hexists. cbn [negb].
  destruct Hfailure as [Htk|(tk & Htk & [Htemplate|(template & Htemplate & Hfields)])];
    rewrite Htk; [reflexivity|rewrite Htemplate..]; [reflexivity|].
  by rewrite Hfields.
Qed.

Lemma create_node_toolkit_failure_witness :
  KatanaActions._create_node studio_corrupt_template "Alembic_In"
    "/proj/shot010/cache.abc" sample_publish "abcAsset" empty_world
  = (Raise (TankError "Template shot_alembic_cache: cannot parse the path"),
     empty_world).
Proof.
  apply (create_node_toolkit_failure studio_corrupt_template "Alembic_In"
           "/proj/shot010/cache.abc" sample_publish "abcAsset" empty_world
           (TankError "Template shot_alembic_cache: cannot parse the path")).
  - reflexivity.
  - right. exists {| tk_project_root := KatanaActions.project_path |}.
    split; [reflexivity|]. right. exists sample_template.
    split; reflexivity.
Defined.

(** X6.  A publish whose file is on disk but whose path matches no
    template makes both node-creation actions raise an
    [AttributeError]: [template_from_path] returns [None], which the
    code does not test before it calls [get_fields] on it.  No node is
    created. *)
Theorem execute_action_without_template (E : Env) (name : string) (params : val)
    (sg_publish_data : gmap string val) (path : string) (tk : Tk) (w : World) :
  name = "create_node_Alembic_In" ∨ name = "create_node_ImageRead" →
  get_publish_path E sg_publish_data = Ok path →
  path_exists E path = true →
  tank_from_path E KatanaActions.project_path = Ok tk →
  template_from_path E tk path = Ok None →
  result (KatanaActions.execute_action E name params sg_publish_data) w
    = Raise (AttributeError "'NoneType' object has no attribute 'get_fields'") ∧
  host_calls (after (KatanaActions.execute_action E name params sg_publish_data) w)
    = host_calls w.
Proof.
  intros Hname Hpath Hexists Htk Htemplate. unfold result, after.
  rewrite execute_action_cases, Hpath.
  destruct Hname as [-> | ->]; cbn [String.eqb Ascii.eqb Bool.eqb];
    by rewrite (create_node_without_template _ _ _ _ _ _ tk).
Qed.

Lemma execute_action_without_template_witness :
  result (KatanaActions.execute_action studio_without_templates
            "create_node_ImageRead" VNone sample_publish) empty_world
    = Raise (AttributeError "'NoneType' object has no attribute 'get_fields'") ∧
  host_calls (after (KatanaActions.execute_action studio_without_templates
                       "create_node_ImageRead" VNone sample_publish) empty_world)
    = [].
Proof.
  apply (execute_action_without_template studio_without_templates
           "create_node_ImageRead" VNone sample_publish "/proj/shot010/cache.abc"
           {| tk_project_root := KatanaActions.project_path |} empty_world).
  - by right.
  - reflexivity.
  - reflexivity.
  - reflexivity.
  - reflexivity.
Defined.

Lemma dropped_create_node (E : Env) (node_type path : string)
    (sg_publish_data : gmap string val) (asset_parameter : string) (w : World) :
  dropped (KatanaActions._create_node E node_type path sg_publish_data
             asset_parameter w) =
  match resolution E path with
  | Raise e => (Raise e, w)
  | Ok (template, fields) =>
      (Ok VNone,
       created node_type asset_parameter
         (KatanaActions.py_str E (VDict (asset_dict template (delete "SEQ" fields)))) w)
  end.
Proof.
  rewrite create_node_resolution.
  by destruct (resolution E path) as [[template fields]|e].
Qed.

(** X7.  An [execute_action] that returns has returned [None], and
    what it did to the node graph is told by the name alone.  With
    "create_node_Alembic_In" it made the four calls of one creation
    (root, create, look up the parameter, set it) of an "Alembic_In"
    with the parameter "abcAsset"; with "create_node_ImageRead" those
    of an "ImageRead" with the parameter "file"; with any other name it
    made no call.  So a creation action never returns without its
    node, and no call creates more than one. *)
Theorem execute_action_returned (E : Env) (name : string) (params : val)
    (sg_publish_data : gmap string val) (w : World) (returned : val) :
  result (KatanaActions.execute_action E name params sg_publish_data) w
    = Ok returned →
  returned = VNone ∧
  ((name = "create_node_Alembic_In" ∧
    ∃ value,
      host_calls (after (KatanaActions.execute_action E name params
                           sg_publish_data) w)
        = host_calls w ++ creation_calls "Alembic_In" "abcAsset" (next_node w) value)
   ∨
   (name = "create_node_ImageRead" ∧
    ∃ value,
      host_calls (after (KatanaActions.execute_action E name params
                           sg_publish_data) w)
        = host_calls w ++ creation_calls "ImageRead" "file" (next_node w) value)
   ∨
   (name ≠ "create_node_Alembic_In" ∧ name ≠ "create_node_ImageRead" ∧
    host_calls (after (KatanaActions.execute_action E name params
                         sg_publish_data) w)
      = host_calls w)).
Proof.
  unfold result, after. rewrite execute_action_cases.
  destruct (get_publish_path E sg_publish_data) as [path|e]; [|discriminate].
  destruct (String.eqb_spec name "create_node_Alembic_In") as [->|Halembic].
  { rewrite dropped_create_node.
    destruct (resolution E path) as [[template fields]|e]; [|discriminate].
    intros [= <-]. split; [reflexivity|]. left. split; [reflexivity|].
    eexists. reflexivity. }
  destruct (String.eqb_spec name "create_node_ImageRead") as [->|Himage].
  { rewrite dropped_create_node.
    destruct (resolution E path) as [[template fields]|e]; [|discriminate].
    intros [= <-]. split; [reflexivity|]. right. left. split; [reflexivity|].
    eexists. reflexivity. }
  intros [= <-]. split; [reflexivity|]. right. right. by repeat split.
Qed.

Lemma execute_action_returned_witness :
  result (KatanaActions.execute_action studio "create_node_ImageRead" VNone
            sample_publish) empty_world = Ok VNone ∧
  ∃ value,
    host_calls (after (KatanaActions.execute_action studio "create_node_ImageRead"
                         VNone sample_publish) empty_world)
      = creation_calls "ImageRead" "file" 1 value.
Proof.
  split; [reflexivity|].
  destruct (execute_action_returned studio "create_node_ImageRead" VNone
              sample_publish empty_world VNone eq_refl)
    as (_ & [(Hname & _)|[(_ & value & Hcalls)|(_ & Hname & _)]]).
  - discriminate Hname.
  - exists value. exact Hcalls.
  - contradiction Hname. reflexivity.
Defined.

(** X8.  Whatever the action and however it ends, [execute_action]
    prints its debug line when [debug_logging] is set and nothing else;
    with the setting off it prints nothing, also when it fails. *)
Theorem execute_action_prints_debug_line_only (E : Env) (name : string)
    (params : val) (sg_publish_data : gmap string val) (w : World) :
  stdout (after (KatanaActions.execute_action E name params sg_publish_data) w) =
  stdout w ++
  (if debug_enabled E
   then ["Shotgun Debug: " +:+ execute_line E name params sg_publish_data]
   else []).
Proof.
  unfold after. rewrite execute_action_cases.
  destruct (get_publish_path E sg_publish_data) as [path|e]; [|reflexivity].
  destruct (String.eqb name "create_node_Alembic_In").
  { rewrite dropped_create_node.
    by destruct (resolution E path) as [[template fields]|e]. }
  destruct (String.eqb name "create_node_ImageRead"); [|reflexivity].
  rewrite dropped_create_node.
  by destruct (resolution E path) as [[template fields]|e].
Qed.

(** X9.  [execute_action] does not use its [params] argument: apart
    from the debug line, which shows it, two calls that differ in
    [params] only return or raise the same and make the same calls into
    the node graph. *)
Theorem execute_action_ignores_params (E : Env) (name : string)
    (params params' : val) (sg_publish_data : gmap string val) (w : World) :
  result (KatanaActions.execute_action E name params sg_publish_data) w
    = result (KatanaActions.execute_action E name params' sg_publish_data) w ∧
  host_calls (after (KatanaActions.execute_action E name params sg_publish_data) w)
    = host_calls (after (KatanaActions.execute_action E name params'
                           sg_publish_data) w) ∧
  next_node (after (KatanaActions.execute_action E name params sg_publish_data) w)
    = next_node (after (KatanaActions.execute_action E name params'
                          sg_publish_data) w).
Proof.
  unfold result, after. rewrite !execute_action_cases.
  destruct (get_publish_path E sg_publish_data) as [path|e]; [|done].
  destruct (String.eqb name "create_node_Alembic_In").
  { rewrite !dropped_create_node.
    by destruct (resolution E path) as [[template fields]|e]. }
  destruct (String.eqb name "create_node_ImageRead"); [|done].
  rewrite !dropped_create_node.
  by destruct (resolution E path) as [[template fields]|e].
Qed.

(** ** The engine, further *)

(** X10.  What [_define_qt_base] prints tells the three outcomes of the
    import apart.  An [ImportError] is passed over in silence; any
    other exception gets a warning line, printed whatever the settings,
    and its traceback as a debug line; a successful import gets a debug
    line with the PyQt version and location.  The node graph is not
    touched. *)
Theorem define_qt_base_output (E : Env) (w : World) :
  after (KatanaEngine._define_qt_base E) w =
  match import_PyQt4 E with
  | Ok (QtCore, QtGui, PyQt4_file) =>
      printed (if debug_enabled E
               then ["Shotgun Debug: Successfully initialized PyQt '"
                     +:+ PYQT_VERSION_STR QtCore +:+ "' located in "
                     +:+ PyQt4_file +:+ "."]
               else []) w
  | Raise (ImportError _) => w
  | Raise e =>
      printed (["Error setting up PyQt. PyQt based UI support will not be available: "
                +:+ exn_message e]
               ++ (if debug_enabled E
                   then ["Shotgun Debug: " +:+ format_exc E e] else [])) w
  end.
Proof.
  unfold after. rewrite define_qt_base_run.
  destruct (import_PyQt4 E) as [[[QtCore QtGui] PyQt4_file]|e]; [reflexivity|].
  by destruct e.
Qed.

(** ** The life cycle *)

Lemma em_bind_run {A B} (c : EM A) (f : A → EM B) (self : Engine) (w : World) :
  (c ≫= f) self w =
  match c self w with
  | (Ok a, self', w') => f a self' w'
  | (Raise e, self', w') => (Raise e, self', w')
  end.
Proof. reflexivity. Qed.

Lemma on_world_log_debug (E : Env) (msg : string) (self : Engine) (w : World) :
  on_world (KatanaEngine.log_debug E msg) self w = (Ok tt, self, logged E msg w).
Proof. unfold on_world. by rewrite log_debug_run. Qed.

Lemma called_called (calls1 calls2 : list EngineCall) (self : Engine) :
  called calls2 (called calls1 self) = called (calls1 ++ calls2) self.
Proof. unfold called. cbn. by rewrite app_assoc. Qed.

Lemma init_engine_run (F : Framework) (E : Env) (self : Engine) (w : World) :
  KatanaEngineLifecycle.init_engine F E self w =
  (Ok tt,
   with_logger "Shotgun Katana Engine"
     (called [Call_getLogger "Shotgun Katana Engine"] self),
   logged E (engine_str F +:+ ": Initializing...") w).
Proof.
  unfold KatanaEngineLifecycle.init_engine.
  rewrite em_bind_run, on_world_log_debug. reflexivity.
Qed.

Lemma add_katana_menu_run (F : Framework) (E : Env) (objectHash : val)
    (self : Engine) (w : World) (logger : Logger) (generator : MenuGenerator) :
  katana_log self = Some logger →
  import_module F "tk_katana" = Ok tt →
  MenuGenerator_new F
    (if truthy (KatanaEngine.get_setting E "use_sgtk_as_menu_name" (VBool false))
     then "Sgtk" else "Shotgun") = Ok generator →
  KatanaEngineLifecycle.add_katana_menu F E objectHash self w =
  (create_menu F generator,
   with_generator generator
     (called [Call_import_module "tk_katana";
              Call_info logger "Start creating shotgun menu.";
              Call_MenuGenerator
                (if truthy (KatanaEngine.get_setting E "use_sgtk_as_menu_name"
                              (VBool false))
                 then "Sgtk" else "Shotgun");
              Call_create_menu generator] self),
   w).
Proof.
  intros Hlogger Himport Hnew.
  unfold KatanaEngineLifecycle.add_katana_menu.
  destruct (truthy _);
    unfold mbind, EM_bind, engine_call, get_katana_log, set_menu_generator,
      get_menu_generator;
    cbn; rewrite Himport, Hlogger; cbn; rewrite Hnew; cbn;
    unfold with_generator, called; cbn; rewrite ?Hlogger, <- ?app_assoc;
    reflexivity.
Qed.

(** X11.  Called on an engine that has its logger, with the module
    imported and the generator built, [add_katana_menu] names the menu
    "Sgtk" when the setting [use_sgtk_as_menu_name] is true and
    "Shotgun" otherwise, also when the setting is absent.  In this
    order it imports [tk_katana], logs "Start creating shotgun menu."
    on the engine's logger, builds the generator with that name, keeps
    it in [_menu_generator] and calls its [create_menu], whose outcome
    is its own; it prints nothing. *)
Theorem add_katana_menu_builds_menu (F : Framework) (E : Env) (objectHash : val)
    (self : Engine) (w : World) (logger : Logger) (generator : MenuGenerator)
    (menu_name : string) :
  menu_name = match settings E !! "use_sgtk_as_menu_name" with
              | Some v => if truthy v then "Sgtk" else "Shotgun"
              | None => "Shotgun"
              end →
  katana_log self = Some logger →
  import_module F "tk_katana" = Ok tt →
  MenuGenerator_new F menu_name = Ok generator →
  KatanaEngineLifecycle.add_katana_menu F E objectHash self w =
  (create_menu F generator,
   {| katana_log := Some logger;
      _menu_generator := Some generator;
      engine_calls := engine_calls self ++
        [Call_import_module "tk_katana";
         Call_info logger "Start creating shotgun menu.";
         Call_MenuGenerator menu_name;
         Call_create_menu generator] |},
   w).
Proof.
  intros Hname Hlogger Himport Hnew.
  assert (Hsetting : menu_name =
            if truthy (KatanaEngine.get_setting E "use_sgtk_as_menu_name" (VBool false))
            then "Sgtk" else "Shotgun").
  { rewrite Hname. unfold KatanaEngine.get_setting.
    by destruct (settings E !! "use_sgtk_as_menu_name"). }
  rewrite Hsetting in Hnew.
  rewrite (add_katana_menu_run F E objectHash self w logger generator) by done.
  rewrite <- Hsetting. unfold with_generator, called. cbn. by rewrite Hlogger.
Qed.

Lemma add_katana_menu_builds_menu_witness :
  KatanaEngineLifecycle.add_katana_menu sample_framework
    (with_settings studio (<["use_sgtk_as_menu_name" := VBool true]> ∅)) VNone
    (with_logger "Shotgun Katana Engine" new_engine) empty_world =
  (Ok tt,
   {| katana_log := Some "Shotgun Katana Engine";
      _menu_generator := Some {| generator_menu_name := "Sgtk" |};
      engine_calls :=
        [Call_import_module "tk_katana";
         Call_info "Shotgun Katana Engine" "Start creating shotgun menu.";
         Call_MenuGenerator "Sgtk";
         Call_create_menu {| generator_menu_name := "Sgtk" |}] |},
   empty_world).
Proof.
  apply (add_katana_menu_builds_menu sample_framework
           (with_settings studio (<["use_sgtk_as_menu_name" := VBool true]> ∅)) VNone
           (with_logger "Shotgun Katana Engine" new_engine) empty_world
           "Shotgun Katana Engine" {| generator_menu_name := "Sgtk" |} "Sgtk");
    reflexivity.
Defined.

(** X12.  [add_katana_menu] reads [self.katana_log], which only
    [init_engine] sets.  On an engine without it, it raises an
    [AttributeError] right after the import of [tk_katana]: no
    generator is built and no menu is created. *)
Theorem add_katana_menu_needs_logger (F : Framework) (E : Env) (objectHash : val)
    (self : Engine) (w : World) :
  katana_log self = None →
  import_module F "tk_katana" = Ok tt →
  KatanaEngineLifecycle.add_katana_menu F E objectHash self w =
  (Raise (AttributeError "'KatanaEngine' object has no attribute 'katana_log'"),
   {| katana_log := None;
      _menu_generator := _menu_generator self;
      engine_calls := engine_calls self ++ [Call_import_module "tk_katana"] |},
   w).
Proof.
  intros Hlogger Himport.
  unfold KatanaEngineLifecycle.add_katana_menu.
  unfold mbind, EM_bind, engine_call, get_katana_log.
  cbn. rewrite Himport. cbn. by rewrite Hlogger.
Qed.

Lemma add_katana_menu_needs_logger_witness :
  KatanaEngineLifecycle.add_katana_menu sample_framework studio VNone new_engine
    empty_world =
  (Raise (AttributeError "'KatanaEngine' object has no attribute 'katana_log'"),
   {| katana_log := None;
      _menu_generator := None;
      engine_calls := [Call_import_module "tk_katana"] |},
   empty_world).
Proof.
  apply (add_katana_menu_needs_logger sample_framework studio VNone new_engine
           empty_world); reflexivity.
Defined.

(** X13.  The life of an engine, in the order the framework and Katana
    drive it: [init_engine], [post_app_init], then the registered
    [add_katana_menu] once Katana has started, then [destroy_engine].
    Whatever the engine's attributes were, [init_engine] sets the
    logger [add_katana_menu] needs; [post_app_init] registers
    [add_katana_menu] for [onStartupComplete] and builds nothing;
    [destroy_engine] leaves the logger, the generator and the
    registration in place.  On standard output this is the two debug
    lines of [init_engine] and [destroy_engine] and nothing else. *)
Theorem engine_life_cycle (F : Framework) (E : Env) (objectHash : val)
    (self : Engine) (w : World) (generator : MenuGenerator) :
  import_module F "tk_katana" = Ok tt →
  MenuGenerator_new F
    (if truthy (KatanaEngine.get_setting E "use_sgtk_as_menu_name" (VBool false))
     then "Sgtk" else "Shotgun") = Ok generator →
  create_menu F generator = Ok tt →
  (KatanaEngineLifecycle.init_engine F E;;
   KatanaEngineLifecycle.post_app_init;;
   KatanaEngineLifecycle.add_katana_menu F E objectHash;;
   KatanaEngineLifecycle.destroy_engine F E) self w =
  (Ok tt,
   {| katana_log := Some "Shotgun Katana Engine";
      _menu_generator := Some generator;
      engine_calls := engine_calls self ++
        [Call_getLogger "Shotgun Katana Engine";
         Call_addCallback "onStartupComplete" Method_add_katana_menu;
         Call_import_module "tk_katana";
         Call_info "Shotgun Katana Engine" "Start creating shotgun menu.";
         Call_MenuGenerator
           (if truthy (KatanaEngine.get_setting E "use_sgtk_as_menu_name"
                         (VBool false))
            then "Sgtk" else "Shotgun");
         Call_create_menu generator] |},
   printed (if debug_enabled E
            then ["Shotgun Debug: " +:+ engine_str F +:+ ": Initializing...";
                  "Shotgun Debug: " +:+ engine_str F +:+ ": Destroying..."]
            else []) w).
Proof.
  intros Himport Hnew Hcreate.
  rewrite em_bind_run, init_engine_run.
  rewrite em_bind_run. unfold KatanaEngineLifecycle.post_app_init at 1.
  unfold engine_call at 1.
  rewrite em_bind_run.
  rewrite (add_katana_menu_run F E objectHash _ _ "Shotgun Katana Engine" generator)
    by done.
  rewrite Hcreate. unfold KatanaEngineLifecycle.destroy_engine.
  rewrite on_world_log_debug. unfold logged. rewrite printed_printed.
  f_equal; [f_equal|].
  - unfold with_generator, called, with_logger. cbn. by rewrite <- !app_assoc.
  - by destruct (debug_enabled E).
Qed.

Lemma engine_life_cycle_witness :
  (KatanaEngineLifecycle.init_engine sample_framework studio;;
   KatanaEngineLifecycle.post_app_init;;
   KatanaEngineLifecycle.add_katana_menu sample_framework studio VNone;;
   KatanaEngineLifecycle.destroy_engine sample_framework studio) new_engine
    empty_world =
  (Ok tt,
   {| katana_log := Some "Shotgun Katana Engine";
      _menu_generator := Some {| generator_menu_name := "Shotgun" |};
      engine_calls :=
        [Call_getLogger "Shotgun Katana Engine";
         Call_addCallback "onStartupComplete" Method_add_katana_menu;
         Call_import_module "tk_katana";
         Call_info "Shotgun Katana Engine" "Start creating shotgun menu.";
         Call_MenuGenerator "Shotgun";
         Call_create_menu {| generator_menu_name := "Shotgun" |}] |},
   empty_world).
Proof.
  apply (engine_life_cycle sample_framework studio VNone new_engine empty_world
           {| generator_menu_name := "Shotgun" |}); reflexivity.
Defined.
